(** * The agent receiver: pairing, registration and data upload

    A shallow embedding of [agent_receiver/checkmk_rest_api.py] and
    [agent_receiver/server.py].  The handlers are written in an error monad
    over an explicit file-system state; the REST API of the site and the
    operating-system calls are the monad's primitives. *)

From Stdlib Require Import ZArith Lia Strings.Byte Strings.Ascii.
From stdpp Require Import base option list strings gmap.

Local Open Scope string_scope.
Local Open Scope Z_scope.

(** ** Exceptions and results *)

(** The Python exceptions the two modules can meet.  [HTTPException] is
    FastAPI's, with its [status_code] and [detail]; the others are built-in
    exceptions or, for [ShutilError], [shutil.Error]. *)
Inductive exn : Type :=
  | FileNotFoundError
  | FileExistsError
  | NotADirectoryError
  | IsADirectoryError
  | OSError (errno : string)
  | KeyError (key : string)
  | IndexError
  | ValueError
  | ConnectionError
  | ShutilError
  | HTTPException (status_code : Z) (detail : string).

Inductive result (A : Type) : Type :=
  | Ok (a : A)
  | Raise (e : exn).
Arguments Ok {A} a.
Arguments Raise {A} e.

Definition bind {A B : Type} (m : result A) (k : A -> result B) : result B :=
  match m with
  | Ok a => k a
  | Raise e => Raise e
  end.

Notation "'let*' x ':=' m 'in' k" := (bind m (fun x => k))
  (at level 10, x pattern, m at level 100, k at level 200).

(** ** The REST API of the site ([checkmk_rest_api.py]) *)

Module RestApi.

Inductive http_method : Type := GET | POST.

  (** JSON values, as far as the two modules build or return them: objects
      with string values. *)
Definition json : Type := list (string * string).

Record Request : Type := mkRequest {
    req_method : http_method;
    req_url : string;
    req_headers : list (string * string);
    req_json : option json;
  }.

  (** A [requests.Response]: the status code, the body as text, and what
      [Response.json()] makes of the body ([None]: the body is not JSON and
      the call raises [ValueError]). *)
Record Response : Type := mkResponse {
    status_code : Z;
    text : string;
    body_json : option json;
  }.

  (** [Response.ok]: [raise_for_status] raises for a status from 400 to 599,
      and [ok] is true when it does not raise. *)
Definition ok (r : Response) : bool :=
    negb ((400 <=? status_code r) && (status_code r <? 600)).

Definition json_of (r : Response) : result json :=
    match body_json r with
    | Some j => Ok j
    | None => Raise ValueError
    end.

Definition HTTPStatus_OK : Z := 200.

Section Forwarder.
    (** The process environment, and the transport: what [requests.get] and
        [requests.post] return for a request, a response of the site or an
        exception of the transport. *)
Variable environ : gmap string string.
Variable send : Request -> result Response.

Definition _local_rest_api_url : result string :=
      match environ !! "OMD_SITE" with
      | Some site => Ok ("http://localhost/" +:+ site +:+ "/check_mk/api/1.0")
      | None => Raise (KeyError "OMD_SITE")
      end.

Definition _forward_post (endpoint authentication : string) (json_body : json)
      : result Response :=
      let* base := _local_rest_api_url in
      send (mkRequest POST (base +:+ "/" +:+ endpoint)
              [("Authorization", authentication); ("Accept", "application/json")]
              (Some json_body)).

Definition _forward_get (endpoint authentication : string) : result Response :=
      let* base := _local_rest_api_url in
      send (mkRequest GET (base +:+ "/" +:+ endpoint)
              [("Authorization", authentication)]
              None).

Definition post_csr (authentication csr : string) : result Response :=
      _forward_post "csr" authentication [("csr", csr)].

Definition host_exists (authentication host_name : string) : result bool :=
      let* r := _forward_get ("objects/host_config/" +:+ host_name) authentication in
      Ok (status_code r =? HTTPStatus_OK).
End Forwarder.

End RestApi.

(** ** The file system under the handlers *)

(** A path is the list of its components from the root; [p / n] adds one
    component, as pathlib's [/] does for a name that is a single component.
    The tree is flat: one node per path that exists. *)
Abbreviation path := (list string).

Inductive node : Type :=
  | Dir
  | File (content : list byte)
  | Symlink (target : path).

Abbreviation fs := (gmap (list string) node).

Module Fs.

Definition join (p : path) (n : string) : path := p ++ [n].
Definition parent (p : path) : path := removelast p.
  (** pathlib's [.name]: the final component, empty for the root. *)
Definition name (p : path) : string := default EmptyString (last p).

  (** Resolution of a path, component by component from the directory
      [cur]: a directory is entered, a symbolic link is replaced by its
      target (a path from the root) and the walk starts again, and a file
      can only be the end.  The kernel gives up after [MAXSYMLINKS] links. *)
Fixpoint walk (fuel : nat) (t : fs) (cur : path) (rest : list string) {struct fuel}
  : result (path * node) :=
  (fix go (cur : path) (rest : list string) {struct rest} : result (path * node) :=
     match rest with
     | [] => Ok (cur, Dir)
     | c :: rest' =>
         match t !! join cur c with
         | None => Raise FileNotFoundError
         | Some Dir => go (join cur c) rest'
         | Some (File x) =>
             match rest' with
             | [] => Ok (join cur c, File x)
             | _ :: _ => Raise NotADirectoryError
             end
         | Some (Symlink target) =>
             match fuel with
             | O => Raise (OSError "ELOOP")
             | S fuel' => walk fuel' t [] (target ++ rest')
             end
         end
     end) cur rest.

Definition MAXSYMLINKS : nat := 40.

  (** [stat(2)]: the node a path leads to, and where it really is. *)
Definition stat (t : fs) (p : path) : result (path * node) :=
  walk MAXSYMLINKS t [] p.

  (** The real place of a directory named by [d]. *)
Definition opendir (t : fs) (d : path) : result path :=
    let* (q, n) := stat t d in
    match n with
    | Dir => Ok q
    | _ => Raise NotADirectoryError
    end.

  (** [lstat(2)]: the entry [name p] of the directory [parent p], not
      followed when it is a link; the real place of the entry, and the node
      there if there is one. *)
Definition entry (t : fs) (p : path) : result (path * option node) :=
    let* d := opendir t (parent p) in
    Ok (join d (name p), t !! join d (name p)).

  (** [Path.exists] and [os.path.isdir] follow links and answer [False] for
      what cannot be reached. *)
Definition exists_ (t : fs) (p : path) : bool :=
    match stat t p with
    | Ok _ => true
    | Raise _ => false
    end.

Definition isdir (t : fs) (p : path) : bool :=
    match stat t p with
    | Ok (_, Dir) => true
    | _ => false
    end.

Definition islink (t : fs) (p : path) : bool :=
    match entry t p with
    | Ok (_, Some (Symlink _)) => true
    | _ => false
    end.

  (** [os.symlink(target, link)], which is [Path(link).symlink_to(target)]. *)
Definition symlink (target link : path) (t : fs) : result fs :=
    let* (q, n) := entry t link in
    match n with
    | Some _ => Raise FileExistsError
    | None => Ok (<[q := Symlink target]> t)
    end.

  (** [os.readlink]. *)
Definition readlink (link : path) (t : fs) : result path :=
    let* (_, n) := entry t link in
    match n with
    | Some (Symlink target) => Ok target
    | Some _ => Raise (OSError "EINVAL")
    | None => Raise FileNotFoundError
    end.

  (** [os.open(p, O_RDWR | O_CREAT | O_EXCL)]: the descriptor is the real
      place of the new, empty file. *)
Definition open_excl (p : path) (t : fs) : result (path * fs) :=
    let* (q, n) := entry t p in
    match n with
    | Some _ => Raise FileExistsError
    | None => Ok (q, <[q := File []]> t)
    end.

  (** [os.unlink]. *)
Definition unlink (p : path) (t : fs) : result fs :=
    let* (q, n) := entry t p in
    match n with
    | None => Raise FileNotFoundError
    | Some Dir => Raise IsADirectoryError
    | Some _ => Ok (delete q t)
    end.

  (** Moving a directory moves what is below it. *)
Definition retarget (src dst k : path) : path :=
    if bool_decide (src `prefix_of` k) then dst ++ drop (length src) k else k.

Definition move_tree (src dst : path) (t : fs) : fs :=
    list_to_map (prod_map (retarget src dst) id <$> map_to_list t).

Definition has_children (t : fs) (d : path) : bool :=
    existsb (fun kv => bool_decide (d `prefix_of` kv.1) && negb (bool_decide (kv.1 = d)))
            (map_to_list t).

  (** [os.rename(src, dst)] on one file system: neither name is followed; a
      file or a link replaces what is at [dst] unless that is a directory; a
      directory replaces only an empty directory. *)
Definition rename (src dst : path) (t : fs) : result fs :=
    let* (qs, ns) := entry t src in
    match ns with
    | None => Raise FileNotFoundError
    | Some n =>
        let* (qd, nd) := entry t dst in
        if bool_decide (qs = qd) then Ok t
        else
          match n, nd with
          | Dir, None =>
              if bool_decide (qs `prefix_of` qd) then Raise (OSError "EINVAL")
              else Ok (move_tree qs qd t)
          | Dir, Some Dir =>
              if has_children t qd then Raise (OSError "ENOTEMPTY")
              else if bool_decide (qs `prefix_of` qd) then Raise (OSError "EINVAL")
              else Ok (move_tree qs qd (delete qd t))
          | Dir, Some _ => Raise NotADirectoryError
          | _, Some Dir => Raise IsADirectoryError
          | _, _ => Ok (<[qd := n]> (delete qs t))
          end
    end.

  (** [open(p, 'rb').read()] and [open(p, 'wb').write(data)]. *)
Definition read_file (p : path) (t : fs) : result (list byte) :=
    let* (_, n) := stat t p in
    match n with
    | File c => Ok c
    | Dir => Raise IsADirectoryError
    | Symlink _ => Raise (OSError "ELOOP")
    end.

Definition write_file (p : path) (data : list byte) (t : fs) : result fs :=
    let* (q, n) := entry t p in
    match n with
    | None => Ok (<[q := File data]> t)
    | Some _ =>
        let* (q', n') := stat t q in
        match n' with
        | Dir => Raise IsADirectoryError
        | _ => Ok (<[q' := File data]> t)
        end
    end.

  (** [shutil.copy2] of a file: the source is opened first. *)
Definition copy2 (src dst : path) (t : fs) : result fs :=
    let* c := read_file src t in
    write_file dst c t.

  (** [shutil.move(src, dst)]: into [dst] when that is a directory (an error
      when the name is taken there), else [os.rename]; when the rename
      raises an [OSError], a link is made anew and a file is copied, and the
      source is unlinked.  Two cases of [shutil.move] for a source that is a
      directory are not modelled: the rename in place when source and
      destination are the same directory, and the copy of the tree when the
      rename fails, for which the rename's error is raised here. *)
Definition move (src dst : path) (t : fs) : result fs :=
    let* real_dst :=
      (if isdir t dst then
         if exists_ t (join dst (name src)) then Raise ShutilError
         else Ok (join dst (name src))
       else Ok dst) in
    match rename src real_dst t with
    | Ok t' => Ok t'
    | Raise e =>
        if islink t src then
          let* target := readlink src t in
          let* t1 := symlink target real_dst t in
          unlink src t1
        else if isdir t src then Raise e
        else
          let* t1 := copy2 src real_dst t in
          unlink src t1
    end.

  (** [tempfile.mkstemp(dir=dir)]: up to [TMP_MAX] random names are tried in
      turn with the prefix ["tmp"]; a name that is taken is skipped, any
      other error of [os.open] is raised, and [FileExistsError] is raised
      when no name was free.  The result is the descriptor and the path
      [dir / name]. *)
Definition TMP_MAX : nat := (100 * 100)%nat.

Fixpoint _mkstemp_inner (dir : path) (names : nat -> string) (seq tries : nat)
      (t : fs) : result ((path * path) * fs) :=
    match tries with
    | O => Raise FileExistsError
    | S tries' =>
        match open_excl (join dir ("tmp" +:+ names seq)) t with
        | Ok (fd, t') => Ok ((fd, join dir ("tmp" +:+ names seq)), t')
        | Raise FileExistsError => _mkstemp_inner dir names (S seq) tries' t
        | Raise e => Raise e
        end
    end.

  (** A name that is one component of a path: not empty, not [.] or [..],
      and without a slash.  The handlers build their paths from the names of
      the requests with [/]; the model covers the names that are components. *)
Fixpoint has_slash (s : string) : bool :=
    match s with
    | EmptyString => false
    | String c s' => Ascii.eqb c ("/"%char : Ascii.ascii) || has_slash s'
    end.

Definition component (n : string) : bool :=
    negb (String.eqb n EmptyString) && negb (String.eqb n ".") && negb (String.eqb n "..")
    && negb (has_slash n).

End Fs.

(** ** Handlers: state and exceptions *)

(** A computation runs on the tree and leaves a tree behind also when it
    raises. *)
Definition M (A : Type) : Type := fs -> result A * fs.

Definition ret {A : Type} (a : A) : M A := fun t => (Ok a, t).
Definition raise {A : Type} (e : exn) : M A := fun t => (Raise e, t).

Definition bindM {A B : Type} (m : M A) (k : A -> M B) : M B :=
  fun t =>
    match m t with
    | (Ok a, t') => k a t'
    | (Raise e, t') => (Raise e, t')
    end.

Notation "'let!' x ':=' m 'in' k" := (bindM m (fun x => k))
  (at level 10, x pattern, m at level 100, k at level 200).

(** A call that only looks at the tree, a call that changes it or fails
    without a change, and a result computed outside the tree. *)
Definition observe {A : Type} (f : fs -> result A) : M A := fun t => (f t, t).

Definition update (f : fs -> result fs) : M unit :=
  fun t =>
    match f t with
    | Ok t' => (Ok tt, t')
    | Raise e => (Raise e, t)
    end.

Definition lift {A : Type} (r : result A) : M A := fun t => (r, t).

(** [try: m  except FileNotFoundError: h]. *)
Definition try_FileNotFoundError {A : Type} (m : M A) (h : M A) : M A :=
  fun t =>
    match m t with
    | (Raise FileNotFoundError, t') => h t'
    | r => r
    end.

(** ** The gateway ([server.py]) *)

Module Server.
Import RestApi.

  (** What FastAPI sends for the outcome of a handler: the value with the
      status of the route, the status and detail of an [HTTPException], or
      500 for any other exception. *)
Inductive reply_body (A : Type) : Type :=
    | Content (a : A)
    | Detail (detail : string)
    | InternalServerError.
Arguments Content {A} a.
Arguments Detail {A} detail.
Arguments InternalServerError {A}.

Definition reply {A : Type} (route_status : Z) (r : result A) : Z * reply_body A :=
    match r with
    | Ok a => (route_status, Content a)
    | Raise (HTTPException s d) => (s, Detail d)
    | Raise _ => (500, InternalServerError)
    end.

Definition HTTP_200_OK : Z := 200.
Definition HTTP_204_NO_CONTENT : Z := 204.
Definition HTTP_404_NOT_FOUND : Z := 404.
Definition HTTP_409_CONFLICT : Z := 409.

  (** [str(authentication)] for the optional header. *)
Definition str (authentication : option string) : string :=
    match authentication with
    | Some s => s
    | None => "None"
    end.

Record PairingBody : Type := mkPairingBody { csr : string }.
Record RegistrationWithHNBody : Type :=
    mkRegistrationWithHNBody { uuid : string; host_name : string }.

  (** [Response(status_code=...)]. *)
Record Response_ : Type := mkResponse_ { response_status : Z }.

Section Gateway.
Variable environ : gmap string string.
Variable send : Request -> result Response.
    (** [load_pem_x509_csr] and the common names of the subject it finds;
        [None] when it raises [ValueError]. *)
Variable common_names : string -> option (list string).
    (** The three roots of [agent_receiver.constants]. *)
Variables AGENT_OUTPUT_DIR DATA_SOURCE_DIR REGISTRATION_REQUESTS : path.
    (** What the run meets outside the request: the sequence of random names
        of [mkstemp], a write to the temporary file that fails after so many
        bytes, and what other processes do to the tree between the test of
        the READY file and its move. *)
Variable names : nat -> string.
Variable write_fault : option nat.
Variable others : fs -> fs.

Definition _uuid_from_pem_csr (pem_csr : string) : result string :=
      match common_names pem_csr with
      | None => Ok "[CSR parsing failed]"
      | Some [] => Raise IndexError
      | Some (cn :: _) => Ok cn
      end.

Definition pairing (authentication : option string) (pairing_body : PairingBody)
      : result json :=
      let* rest_api_csr_resp := post_csr environ send (str authentication) (csr pairing_body) in
      if ok rest_api_csr_resp then
        let* _ := _uuid_from_pem_csr (csr pairing_body) in
        json_of rest_api_csr_resp
      else
        let* _ := _uuid_from_pem_csr (csr pairing_body) in
        Raise (HTTPException (status_code rest_api_csr_resp) (text rest_api_csr_resp)).

Definition _create_link (source_dir target_dir : path) (uuid host_name : string)
      : M unit :=
      update (Fs.symlink (Fs.join target_dir host_name) (Fs.join source_dir uuid)).

Definition register_with_hostname (authentication : option string)
        (registration_body : RegistrationWithHNBody) : M Response_ :=
      let! found := lift (host_exists environ send (str authentication)
                            (host_name registration_body)) in
      if negb found then
        raise (HTTPException HTTP_404_NOT_FOUND
                 ("Host " +:+ host_name registration_body +:+ " does not exist"))
      else
        let! _ := _create_link AGENT_OUTPUT_DIR DATA_SOURCE_DIR
                    (uuid registration_body) (host_name registration_body) in
        ret (mkResponse_ HTTP_204_NO_CONTENT).

Definition get_hostname (uuid : string) : M (option string) :=
      let link_path := Fs.join AGENT_OUTPUT_DIR uuid in
      try_FileNotFoundError
        (let! target_path := observe (Fs.readlink link_path) in
         ret (Some (Fs.name target_path)))
        (ret None).

    (** [shutil.copyfileobj] into the open temporary file. *)
Definition copyfileobj (data : list byte) (fd : path) : M unit :=
      fun t =>
        match write_fault with
        | None => (Ok tt, <[fd := File data]> t)
        | Some k => (Raise (OSError "ENOSPC"), <[fd := File (take k data)]> t)
        end.

Definition mkstemp (dir : path) : M (path * path) :=
      fun t =>
        match Fs._mkstemp_inner dir names 0 Fs.TMP_MAX t with
        | Ok (r, t') => (Ok r, t')
        | Raise e => (Raise e, t)
        end.

Definition interference : M unit := fun t => (Ok tt, others t).

    (** A string is true when it is not empty. *)
Definition truthy (hostname : option string) : bool :=
      match hostname with
      | Some EmptyString | None => false
      | Some _ => true
      end.

Definition ready_file (uuid : string) : path :=
      Fs.join (Fs.join REGISTRATION_REQUESTS "READY") (uuid +:+ ".json").

Definition discoverable_file (hostname : string) : path :=
      Fs.join (Fs.join REGISTRATION_REQUESTS "DISCOVERABLE") (hostname +:+ ".json").

Definition store_payload (uuid : string) (upload_file : list byte) : M unit :=
      let file_dir := Fs.join AGENT_OUTPUT_DIR uuid in
      let file_path := Fs.join file_dir "received-output" in
      let! (file_handle, temp_path) := mkstemp file_dir in
      let! _ := copyfileobj upload_file file_handle in
      update (Fs.rename temp_path file_path).

Definition promote (uuid : string) (hostname : option string) : M unit :=
      let! ready := observe (fun t => Ok (Fs.exists_ t (ready_file uuid))) in
      if ready && truthy hostname then
        let! _ := interference in
        try_FileNotFoundError
          (update (Fs.move (ready_file uuid) (discoverable_file (default EmptyString hostname))))
          (ret tt)
      else ret tt.

Definition agent_data (uuid : string) (upload_file : list byte) : M json :=
      let! _ := try_FileNotFoundError
                  (store_payload uuid upload_file)
                  (raise (HTTPException 403 "Host is not registered")) in
      let! hostname := get_hostname uuid in
      let! _ := promote uuid hostname in
      ret [("message", "Agent data saved.")].

End Gateway.
End Server.

(** ** Sites, requests and trees for the examples *)

Import RestApi Server.

Definition site_environ : gmap string string := {[ "OMD_SITE" := "mysite" ]}.

(** A site that answers every request with one response. *)
Definition answering (r : Response) : Request -> result Response := fun _ => Ok r.

Definition one_common_name : string -> option (list string) := fun _ => Some ["uuid-1"].

(** A duplicate registration reported as a conflict: the answer to the
    request has the conflict status. *)
Definition duplicate_is_conflict (environ : gmap string string)
    (send : Request -> result Response) (AGENT_OUTPUT_DIR DATA_SOURCE_DIR : path)
    (authentication : option string) (registration_body : RegistrationWithHNBody)
    (t : fs) : Prop :=
  (reply HTTP_204_NO_CONTENT
     (register_with_hostname environ send AGENT_OUTPUT_DIR DATA_SOURCE_DIR
        authentication registration_body t).1).1 = HTTP_409_CONFLICT.

(** Pairing as a verbatim relay: whatever the site answers to the signing request, the
    gateway answers with the site's status and carries the site's body (as
    the JSON value on success, as the detail on failure). *)
Definition carries (b : reply_body json) (resp : Response) : Prop :=
  match b with
  | Content j => body_json resp = Some j
  | Detail d => d = text resp
  | InternalServerError => False
  end.

Definition pairing_verbatim (environ : gmap string string)
    (send : Request -> result Response) (common_names : string -> option (list string))
    (authentication : option string) (pairing_body : PairingBody) : Prop :=
  forall resp,
    post_csr environ send (str authentication) (csr pairing_body) = Ok resp ->
    let answer := reply HTTP_200_OK
                    (pairing environ send common_names authentication pairing_body) in
    answer.1 = status_code resp /\ carries answer.2 resp.

(** Pairing with the threshold at 400: a status below 400 is a success
    that returns the JSON body, and a status of 400 or more raises the
    [HTTPException] with the site's status and text, and nothing else
    does. *)
Definition pairing_threshold_400 (environ : gmap string string)
    (send : Request -> result Response) (common_names : string -> option (list string))
    (authentication : option string) (pairing_body : PairingBody) : Prop :=
  forall resp,
    post_csr environ send (str authentication) (csr pairing_body) = Ok resp ->
    let outcome := pairing environ send common_names authentication pairing_body in
    (status_code resp < 400 -> outcome = json_of resp)
    /\ (400 <= status_code resp ->
          outcome = Raise (HTTPException (status_code resp) (text resp)))
    /\ ((exists s d, outcome = Raise (HTTPException s d)) <-> 400 <= status_code resp).

Definition unauthorized : Response := mkResponse 401 "Unauthorized" None.

(** A signing request that parses and whose subject has no common name. *)
Definition no_common_name : string -> option (list string) := fun _ => Some [].

Definition created : Response := mkResponse 201 "{}" (Some []).

(** A site tree: the three roots, the two stages of the registration
    requests, the data directory of the host [heute], and a request of the
    agent [uuid-1] that waits for its first data. *)
Definition agent_output_dir : path := ["var"; "agent_output"].
Definition data_source_dir : path := ["var"; "data_source"].
Definition registration_requests : path := ["var"; "registration_requests"].

Definition site_tree : fs :=
  list_to_map
    [ (["var"], Dir);
      (agent_output_dir, Dir);
      (data_source_dir, Dir);
      (Fs.join data_source_dir "heute", Dir);
      (registration_requests, Dir);
      (Fs.join registration_requests "READY", Dir);
      (Fs.join registration_requests "DISCOVERABLE", Dir);
      (Fs.join (Fs.join registration_requests "READY") "uuid-1.json", File []) ].

(** The same tree once [uuid-1] is linked to [heute]. *)
Definition linked_tree : fs :=
  <[ Fs.join agent_output_dir "uuid-1" := Symlink (Fs.join data_source_dir "heute") ]>
    site_tree.

(** A site that cannot be reached. *)
Definition unreachable : Request -> result Response := fun _ => Raise ConnectionError.

Definition found : Response := mkResponse 200 "{}" (Some []).

(** One random name for every try of [mkstemp], and two payloads. *)
Definition one_name : nat -> string := fun _ => "k3x9_abc".
Definition payload1 : list byte := [x3c; x3c; x3c].
Definition payload2 : list byte := [x3e; x3e].

(** The linked tree with a payload stored for [uuid-1]. *)
Definition stored_tree : fs :=
  <[ Fs.join (Fs.join data_source_dir "heute") "received-output" := File payload2 ]>
    linked_tree.

(** A tree where the agent output directory has a real directory and a
    stray file instead of links. *)
Definition legacy_tree : fs :=
  <[ Fs.join agent_output_dir "legacy" := Dir ]>
    (<[ Fs.join agent_output_dir "stray" := File payload2 ]> site_tree).

(** The linked tree without its DISCOVERABLE directory. *)
Definition bare_tree : fs :=
  delete (Fs.join registration_requests "DISCOVERABLE") linked_tree.

(** Another process that removes the READY request of [uuid-1]. *)
Definition sweep : fs -> fs :=
  delete (Fs.join (Fs.join registration_requests "READY") "uuid-1.json").

(** What [agent_data] returns. *)
Definition message_saved : json := [("message", "Agent data saved.")].

(** ** Trees that differ in files only *)

(** An entry that is not a symbolic link. *)
Definition no_link (o : option node) : Prop :=
  match o with
  | Some (Symlink _) => False
  | _ => True
  end.

(** Two trees with the same directories and links: they differ only where
    both have a file or nothing. *)
Definition leaf (o : option node) : Prop :=
  match o with
  | None | Some (File _) => True
  | _ => False
  end.

Definition same_skeleton (t t' : fs) : Prop :=
  forall k, t !! k = t' !! k \/ (leaf (t !! k) /\ leaf (t' !! k)).

(** * Properties *)

(** ** Results and runs *)

Lemma bind_Ok {A B : Type} (m : result A) (k : A -> result B) (b : B) :
  bind m k = Ok b -> exists a, m = Ok a /\ k a = Ok b.
Proof. destruct m as [a|e]; simpl; [eauto | discriminate]. Qed.

Lemma bind_Raise {A B : Type} (m : result A) (k : A -> result B) (e : exn) :
  m = Raise e -> bind m k = Raise e.
Proof. intros ->; reflexivity. Qed.

Lemma run_pair {A : Type} (m : M A) (t : fs) (r : result A) :
  (m t).1 = r -> m t = (r, (m t).2).
Proof. destruct (m t) as [r' t']. simpl. intros ->. reflexivity. Qed.

(** ** The forwarder *)

Section ForwarderFacts.
Variable environ : gmap string string.
Variable send : Request -> result Response.

Lemma host_exists_of_response (authentication host_name : string) (r : Response) :
    _forward_get environ send ("objects/host_config/" +:+ host_name) authentication = Ok r ->
    host_exists environ send authentication host_name = Ok (status_code r =? 200).
  Proof. unfold host_exists; intros ->; reflexivity. Qed.

Lemma ok_true_iff (r : Response) :
    status_code r < 600 -> (ok r = true <-> status_code r < 400).
  Proof.
    unfold ok; intros Hlt.
    destruct (Z.leb_spec 400 (status_code r)), (Z.ltb_spec (status_code r) 600);
      simpl; split; intros; try lia; try discriminate; reflexivity.
  Qed.
End ForwarderFacts.

(** C9: [host_exists] answers true if and only if the status of the site's
    answer to the lookup is 200 (OK); for any other status, 401 and 403
    among them, it answers false. *)
Theorem host_exists_iff_status_OK
    (environ : gmap string string) (send : Request -> result Response)
    (authentication host_name : string) (r : Response) :
  _forward_get environ send ("objects/host_config/" +:+ host_name) authentication = Ok r ->
  (host_exists environ send authentication host_name = Ok true <-> status_code r = 200)
  /\ (host_exists environ send authentication host_name = Ok false <-> status_code r <> 200).
Proof.
  intros Hget. rewrite (host_exists_of_response _ _ _ _ _ Hget).
  destruct (Z.eqb_spec (status_code r) 200) as [E|E]; split; split;
    intros H; try reflexivity; try congruence.
Qed.

Lemma host_exists_iff_status_OK_witness :
  host_exists site_environ (answering (mkResponse 401 "Unauthorized" None)) "Bearer x" "heute"
  = Ok false.
Proof.
  apply (proj2 (host_exists_iff_status_OK site_environ
                  (answering (mkResponse 401 "Unauthorized" None)) "Bearer x" "heute"
                  (mkResponse 401 "Unauthorized" None) eq_refl)).
  simpl. lia.
Defined.

(** ** Pairing *)

Section PairingFacts.
Variable environ : gmap string string.
Variable send : Request -> result Response.
Variable common_names : string -> option (list string).

Lemma pairing_unfold (authentication : option string) (pairing_body : PairingBody)
      (resp : Response) (u : string) :
    post_csr environ send (str authentication) (csr pairing_body) = Ok resp ->
    _uuid_from_pem_csr common_names (csr pairing_body) = Ok u ->
    pairing environ send common_names authentication pairing_body =
      if ok resp then json_of resp
      else Raise (HTTPException (status_code resp) (text resp)).
  Proof.
    intros Hpost Hu. unfold pairing. rewrite Hpost. simpl.
    rewrite Hu. simpl. reflexivity.
  Qed.

Lemma json_of_not_HTTPException (resp : Response) (s : Z) (d : string) :
    json_of resp <> Raise (HTTPException s d).
  Proof. unfold json_of; destruct (body_json resp); discriminate. Qed.
End PairingFacts.

Lemma ok_true_iff_range (r : Response) :
  ok r = true <-> (status_code r < 400 \/ 600 <= status_code r).
Proof.
  unfold ok.
  destruct (Z.leb_spec 400 (status_code r)), (Z.ltb_spec (status_code r) 600);
    simpl; split; intros; try lia; try discriminate; reflexivity.
Qed.

Lemma ok_false_iff_range (r : Response) :
  ok r = false <-> 400 <= status_code r < 600.
Proof.
  pose proof (ok_true_iff_range r) as H. destruct (ok r); split; intros H'.
  - discriminate.
  - assert (true = true) as E by reflexivity. apply H in E. lia.
  - destruct (Z.le_gt_cases 400 (status_code r)), (Z.lt_ge_cases (status_code r) 600);
      try lia; assert (false = true) by (apply H; lia); discriminate.
  - reflexivity.
Qed.

(** C10, as stated, fails: the site answers 401 to a signing request whose
    subject has no common name, and [pairing] raises [IndexError], not the
    [HTTPException] with the site's status. *)
Lemma pairing_threshold_400_counterexample :
  ~ pairing_threshold_400 site_environ (answering unauthorized) no_common_name
      (Some "Bearer x") (mkPairingBody "csr").
Proof.
  intros H. destruct (H unauthorized eq_refl) as (_ & Hraise & _).
  assert (Hs : 400 <= status_code unauthorized) by (simpl; lia).
  specialize (Hraise Hs). vm_compute in Hraise. discriminate Hraise.
Qed.

(** The other side of the threshold: a status of 600 is a success for
    [Response.ok]. *)
Lemma pairing_status_600_is_success :
  pairing site_environ (answering (mkResponse 600 "{}" (Some []))) one_common_name
    (Some "Bearer x") (mkPairingBody "csr") = Ok [].
Proof. reflexivity. Qed.

(** C10, amended: for a signing request whose log line can be built (the
    subject has a common name, or the request does not parse), [pairing]
    treats the site's answer as a success exactly when [Response.ok] holds,
    that is when the status is below 400 (a 3xx among them) or 600 and
    more: it then returns what [Response.json()] gives for the body, which
    FastAPI sends with the route's status 200; it raises an [HTTPException],
    and then one with the site's status and text, exactly when the status
    is from 400 to 599. *)
Theorem pairing_success_iff_status_below_400
    (environ : gmap string string) (send : Request -> result Response)
    (common_names : string -> option (list string))
    (authentication : option string) (pairing_body : PairingBody)
    (resp : Response) (u : string) :
  post_csr environ send (str authentication) (csr pairing_body) = Ok resp ->
  _uuid_from_pem_csr common_names (csr pairing_body) = Ok u ->
  let outcome := pairing environ send common_names authentication pairing_body in
  (status_code resp < 400 \/ 600 <= status_code resp ->
     outcome = json_of resp
     /\ forall j, body_json resp = Some j ->
          outcome = Ok j /\ reply HTTP_200_OK outcome = (200, Content j))
  /\ (400 <= status_code resp < 600 ->
        outcome = Raise (HTTPException (status_code resp) (text resp)))
  /\ ((exists s d, outcome = Raise (HTTPException s d)) <-> 400 <= status_code resp < 600).
Proof.
  intros Hpost Hu outcome.
  assert (Hout : outcome = if ok resp then json_of resp
                 else Raise (HTTPException (status_code resp) (text resp)))
    by (apply pairing_unfold with (u := u); assumption).
  pose proof (ok_true_iff_range resp) as Hok.
  pose proof (ok_false_iff_range resp) as Hko.
  destruct (ok resp) eqn:E.
  - assert (Hs : status_code resp < 400 \/ 600 <= status_code resp)
      by (apply Hok; reflexivity).
    split; [|split].
    + intros _. split; [exact Hout|].
      intros j Hj. rewrite Hout. unfold json_of. rewrite Hj. split; reflexivity.
    + lia.
    + split; [|lia]. intros (s & d & Hr). rewrite Hout in Hr.
      exfalso. exact (json_of_not_HTTPException _ _ _ Hr).
  - assert (Hs : 400 <= status_code resp < 600) by (apply Hko; reflexivity).
    split; [|split].
    + lia.
    + intros _. exact Hout.
    + split; [intros _; exact Hs|]. intros _. eauto.
Qed.

Lemma pairing_success_iff_status_below_400_witness :
  pairing site_environ (answering (mkResponse 302 "{}" (Some []))) one_common_name
    (Some "Bearer x") (mkPairingBody "csr") = Ok [].
Proof.
  refine (proj1 (proj2 (proj1 (pairing_success_iff_status_below_400
            site_environ (answering (mkResponse 302 "{}" (Some []))) one_common_name
            (Some "Bearer x") (mkPairingBody "csr") (mkResponse 302 "{}" (Some [])) "uuid-1"
            eq_refl eq_refl) _) [] eq_refl)); simpl; lia.
Defined.

(** C2, as stated, fails: a site that answers the signing request with 201
    gets its body relayed, but with the route's status 200. *)
Lemma pairing_verbatim_counterexample :
  ~ pairing_verbatim site_environ (answering created) one_common_name
      (Some "Bearer x") (mkPairingBody "csr").
Proof.
  intros H. destruct (H created eq_refl) as [Hstatus _].
  vm_compute in Hstatus. discriminate Hstatus.
Qed.

(** C2, amended: for a signing request whose log line can be built (the
    subject has a common name, or the request does not parse): when the
    site's status is from 400 to 599, the gateway's answer carries the site's
    status and the site's body text as the detail; when the status is
    outside that range and the body is JSON, the answer carries the JSON
    value of the body with the route's status 200, and the site's status is
    not passed on. *)
Theorem pairing_reply_carries_body_and_error_status
    (environ : gmap string string) (send : Request -> result Response)
    (common_names : string -> option (list string))
    (authentication : option string) (pairing_body : PairingBody)
    (resp : Response) (u : string) :
  post_csr environ send (str authentication) (csr pairing_body) = Ok resp ->
  _uuid_from_pem_csr common_names (csr pairing_body) = Ok u ->
  let answer := reply HTTP_200_OK
                  (pairing environ send common_names authentication pairing_body) in
  (400 <= status_code resp < 600 ->
     answer = (status_code resp, Detail (text resp)) /\ carries answer.2 resp)
  /\ (status_code resp < 400 \/ 600 <= status_code resp ->
        forall j, body_json resp = Some j ->
          answer = (200, Content j) /\ carries answer.2 resp).
Proof.
  intros Hpost Hu answer. subst answer.
  rewrite (pairing_unfold _ _ _ _ _ _ _ Hpost Hu).
  pose proof (ok_true_iff_range resp) as Hok.
  pose proof (ok_false_iff_range resp) as Hko.
  split; intros Hs.
  - apply Hko in Hs. rewrite Hs. simpl. split; reflexivity.
  - apply Hok in Hs. rewrite Hs. intros j Hj. unfold json_of. rewrite Hj. simpl.
    split; [reflexivity | exact Hj].
Qed.

Lemma pairing_reply_carries_body_and_error_status_witness :
  reply HTTP_200_OK
    (pairing site_environ (answering unauthorized) one_common_name
       (Some "Bearer x") (mkPairingBody "csr"))
  = (401, Detail "Unauthorized").
Proof.
  refine (proj1 (proj1 (pairing_reply_carries_body_and_error_status
            site_environ (answering unauthorized) one_common_name
            (Some "Bearer x") (mkPairingBody "csr") unauthorized
            "uuid-1" eq_refl eq_refl) _)); simpl; lia.
Defined.

(** ** Paths and resolution *)

Lemma parent_join (d : path) (n : string) : Fs.parent (Fs.join d n) = d.
Proof. unfold Fs.parent, Fs.join. apply removelast_last. Qed.

Lemma name_join (d : path) (n : string) : Fs.name (Fs.join d n) = n.
Proof. unfold Fs.name, Fs.join. rewrite last_snoc. reflexivity. Qed.

Lemma join_inj (d d' : path) (n n' : string) :
  Fs.join d n = Fs.join d' n' -> d = d' /\ n = n'.
Proof.
  unfold Fs.join. intros H. apply app_inj_tail in H. exact H.
Qed.

Lemma entry_join (t : fs) (d : path) (n : string) :
  Fs.entry t (Fs.join d n) =
    let* q := Fs.opendir t d in Ok (Fs.join q n, t !! Fs.join q n).
Proof. unfold Fs.entry. rewrite parent_join, name_join. reflexivity. Qed.

Lemma entry_join_Ok (t : fs) (d q : path) (n : string) :
  Fs.opendir t d = Ok q ->
  Fs.entry t (Fs.join d n) = Ok (Fs.join q n, t !! Fs.join q n).
Proof. intros H. rewrite entry_join, H. reflexivity. Qed.

Lemma entry_join_Raise (t : fs) (d : path) (n : string) (e : exn) :
  Fs.opendir t d = Raise e -> Fs.entry t (Fs.join d n) = Raise e.
Proof. intros H. rewrite entry_join, H. reflexivity. Qed.

Lemma walk_nil (fuel : nat) (t : fs) (cur : path) :
  Fs.walk fuel t cur [] = Ok (cur, Dir).
Proof. destruct fuel; reflexivity. Qed.

Lemma walk_cons (fuel : nat) (t : fs) (cur : path) (c : string) (rest : list string) :
  Fs.walk fuel t cur (c :: rest) =
    match t !! Fs.join cur c with
    | None => Raise FileNotFoundError
    | Some Dir => Fs.walk fuel t (Fs.join cur c) rest
    | Some (File x) =>
        match rest with
        | [] => Ok (Fs.join cur c, File x)
        | _ :: _ => Raise NotADirectoryError
        end
    | Some (Symlink target) =>
        match fuel with
        | O => Raise (OSError "ELOOP")
        | S fuel' => Fs.walk fuel' t [] (target ++ rest)
        end
    end.
Proof. destruct fuel; reflexivity. Qed.

(** A new entry where there was none leaves every resolution that
    succeeded as it was. *)
Lemma walk_insert_fresh (t : fs) (k : path) (x : node) :
  t !! k = None ->
  forall fuel cur rest r,
    Fs.walk fuel t cur rest = Ok r -> Fs.walk fuel (<[k := x]> t) cur rest = Ok r.
Proof.
  intros Hk. induction fuel as [|fuel IHf]; intros cur rest; revert cur;
    induction rest as [|c rest IHr]; intros cur r;
    rewrite ?walk_nil, ?walk_cons; auto;
    (destruct (decide (k = Fs.join cur c)) as [Heq|Hne];
     [rewrite <- Heq, Hk; discriminate
     |rewrite (lookup_insert_ne t k _ x Hne);
      destruct (t !! Fs.join cur c) as [[| |target]|]; auto]).
Qed.

Lemma opendir_insert_fresh (t : fs) (k : path) (x : node) (d q : path) :
  t !! k = None -> Fs.opendir t d = Ok q -> Fs.opendir (<[k := x]> t) d = Ok q.
Proof.
  unfold Fs.opendir, Fs.stat. intros Hk H.
  destruct (Fs.walk Fs.MAXSYMLINKS t [] d) as [[q' n]|e] eqn:E; [|discriminate].
  rewrite (walk_insert_fresh _ _ x Hk _ _ _ _ E). exact H.
Qed.

(** Putting a file somewhere changes a resolution only by ending it at that
    file, or by stopping it there when more components follow. *)
Lemma walk_insert_file (t : fs) (k : path) (c : list byte) :
  forall fuel cur rest,
    Fs.walk fuel (<[k := File c]> t) cur rest = Fs.walk fuel t cur rest
    \/ Fs.walk fuel (<[k := File c]> t) cur rest = Ok (k, File c)
    \/ Fs.walk fuel (<[k := File c]> t) cur rest = Raise NotADirectoryError.
Proof.
  induction fuel as [|fuel IHf]; intros cur rest; revert cur;
    induction rest as [|n rest IHr]; intros cur;
    rewrite ?walk_nil, ?walk_cons; auto;
    (destruct (decide (k = Fs.join cur n)) as [Heq|Hne];
     [rewrite <- Heq, lookup_insert_eq; destruct rest; auto
     |rewrite (lookup_insert_ne t k _ (File c) Hne);
      destruct (t !! Fs.join cur n) as [[| |target]|]; auto]).
Qed.

Lemma opendir_insert_file (t : fs) (k : path) (c : list byte) (d : path) :
  Fs.opendir (<[k := File c]> t) d = Fs.opendir t d
  \/ Fs.opendir (<[k := File c]> t) d = Raise NotADirectoryError.
Proof.
  unfold Fs.opendir, Fs.stat.
  destruct (walk_insert_file t k c Fs.MAXSYMLINKS [] d) as [-> | [-> | ->]]; auto.
Qed.

(** ** Registration and links *)

Section RegistrationFacts.
Variable environ : gmap string string.
Variable send : Request -> result Response.
Variables AGENT_OUTPUT_DIR DATA_SOURCE_DIR : path.

Lemma register_with_hostname_unfold (authentication : option string)
    (registration_body : RegistrationWithHNBody) (r : Response) (t : fs) :
  _forward_get environ send ("objects/host_config/" +:+ host_name registration_body)
    (str authentication) = Ok r ->
  register_with_hostname environ send AGENT_OUTPUT_DIR DATA_SOURCE_DIR
    authentication registration_body t =
  if status_code r =? 200 then
    match Fs.symlink (Fs.join DATA_SOURCE_DIR (host_name registration_body))
            (Fs.join AGENT_OUTPUT_DIR (uuid registration_body)) t with
    | Ok t' => (Ok (mkResponse_ HTTP_204_NO_CONTENT), t')
    | Raise e => (Raise e, t)
    end
  else (Raise (HTTPException 404
                 ("Host " +:+ host_name registration_body +:+ " does not exist")), t).
Proof.
  intros Hget. unfold register_with_hostname, bindM, lift.
  rewrite (host_exists_of_response _ _ _ _ _ Hget).
  destruct (status_code r =? 200); simpl; [|reflexivity].
  unfold _create_link, update.
  destruct (Fs.symlink _ _ t); reflexivity.
Qed.


Lemma symlink_Ok_inv (t t' : fs) (d target : path) (n : string) :
  Fs.symlink target (Fs.join d n) t = Ok t' ->
  exists q, Fs.opendir t d = Ok q /\ t !! Fs.join q n = None
            /\ t' = <[Fs.join q n := Symlink target]> t.
Proof.
  unfold Fs.symlink. rewrite entry_join.
  destruct (Fs.opendir t d) as [q|e]; simpl; [|discriminate].
  destruct (t !! Fs.join q n) eqn:E; [discriminate|].
  intros [= <-]. eauto.
Qed.

Lemma readlink_after_symlink (t : fs) (d q target : path) (n : string) :
  Fs.opendir t d = Ok q -> t !! Fs.join q n = None ->
  Fs.readlink (Fs.join d n) (<[Fs.join q n := Symlink target]> t) = Ok target.
Proof.
  intros Hd Hn. unfold Fs.readlink.
  rewrite (entry_join_Ok _ _ q); [|apply opendir_insert_fresh; assumption].
  simpl. rewrite lookup_insert_eq. reflexivity.
Qed.

Lemma readlink_Ok_entry (t : fs) (link target : path) :
  Fs.readlink link t = Ok target ->
  exists q, Fs.entry t link = Ok (q, Some (Symlink target)).
Proof.
  unfold Fs.readlink.
  destruct (Fs.entry t link) as [[q [[| |tg]|]]|e]; simpl; try discriminate.
  intros [= ->]. eauto.
Qed.

Lemma get_hostname_unfold (uuid : string) (t : fs) :
  get_hostname AGENT_OUTPUT_DIR uuid t =
    match Fs.readlink (Fs.join AGENT_OUTPUT_DIR uuid) t with
    | Ok target => (Ok (Some (Fs.name target)), t)
    | Raise FileNotFoundError => (Ok None, t)
    | Raise e => (Raise e, t)
    end.
Proof.
  unfold get_hostname, try_FileNotFoundError, bindM, observe, ret.
  destruct (Fs.readlink _ t) as [tg|[]]; reflexivity.
Qed.

End RegistrationFacts.



(** C1, as stated, fails: a second registration of a linked uuid is not
    answered with the conflict status; the answer is the 500 of an uncaught
    exception. *)
Lemma register_with_hostname_duplicate_counterexample :
  ~ duplicate_is_conflict site_environ (answering found)
      agent_output_dir data_source_dir (Some "Bearer x")
      (mkRegistrationWithHNBody "uuid-1" "morgen") linked_tree.
Proof.
  unfold duplicate_is_conflict. intros H. vm_compute in H. discriminate H.
Qed.

(** C1, amended: when the site confirms the host and there is a link for the
    uuid in the agent output directory already, [register_with_hostname]
    does not succeed and makes no second link: the [FileExistsError] of the
    link creation is raised to the caller uncaught, the tree, with the link
    that was there, is unchanged, and the answer to the request is the 500
    of an uncaught exception, not a conflict. *)
Theorem register_with_hostname_duplicate
    (environ : gmap string string) (send : Request -> result Response)
    (AGENT_OUTPUT_DIR DATA_SOURCE_DIR : path)
    (authentication : option string) (registration_body : RegistrationWithHNBody)
    (r : Response) (target : path) (t : fs) :
  Fs.component (uuid registration_body) = true ->
  Fs.component (host_name registration_body) = true ->
  _forward_get environ send ("objects/host_config/" +:+ host_name registration_body)
    (str authentication) = Ok r ->
  status_code r = 200 ->
  Fs.readlink (Fs.join AGENT_OUTPUT_DIR (uuid registration_body)) t = Ok target ->
  let run := register_with_hostname environ send AGENT_OUTPUT_DIR DATA_SOURCE_DIR
               authentication registration_body t in
  run = (Raise FileExistsError, t)
  /\ reply HTTP_204_NO_CONTENT run.1 = (500, InternalServerError)
  /\ Fs.readlink (Fs.join AGENT_OUTPUT_DIR (uuid registration_body)) run.2 = Ok target.
Proof.
  intros _ _ Hget Hs Hlink run.
  assert (Hrun : run = (Raise FileExistsError, t)).
  { unfold run. rewrite (register_with_hostname_unfold _ _ _ _ _ _ _ _ Hget).
    apply Z.eqb_eq in Hs. rewrite Hs.
    destruct (readlink_Ok_entry _ _ _ Hlink) as [q Hq].
    unfold Fs.symlink. rewrite Hq. reflexivity. }
  rewrite Hrun. split; [reflexivity|]. split; [reflexivity | exact Hlink].
Qed.

Lemma register_with_hostname_duplicate_witness :
  register_with_hostname site_environ (answering found)
    agent_output_dir data_source_dir (Some "Bearer x")
    (mkRegistrationWithHNBody "uuid-1" "morgen") linked_tree
  = (Raise FileExistsError, linked_tree).
Proof.
  refine (proj1 (register_with_hostname_duplicate site_environ (answering found)
            agent_output_dir data_source_dir (Some "Bearer x")
            (mkRegistrationWithHNBody "uuid-1" "morgen") found
            (Fs.join data_source_dir "heute") linked_tree
            eq_refl eq_refl eq_refl eq_refl _)).
  vm_compute. reflexivity.
Defined.



(** ** Storing the payload *)

Lemma walk_not_FileExistsError (t : fs) :
  forall fuel cur rest, Fs.walk fuel t cur rest <> Raise FileExistsError.
Proof.
  induction fuel as [|fuel IHf]; intros cur rest; revert cur;
    induction rest as [|c rest IHr]; intros cur;
    rewrite ?walk_nil, ?walk_cons; try discriminate;
    destruct (t !! Fs.join cur c) as [[| |target]|]; auto; try discriminate;
    destruct rest; discriminate.
Qed.

Lemma opendir_not_FileExistsError (t : fs) (d : path) :
  Fs.opendir t d <> Raise FileExistsError.
Proof.
  unfold Fs.opendir, Fs.stat.
  pose proof (walk_not_FileExistsError t Fs.MAXSYMLINKS [] d) as H.
  destruct (Fs.walk Fs.MAXSYMLINKS t [] d) as [[q [| |]]|e]; simpl; try discriminate.
  intros [= ->]. apply H. reflexivity.
Qed.


Lemma open_excl_join (t : fs) (d : path) (n : string) :
  Fs.open_excl (Fs.join d n) t =
    match Fs.opendir t d with
    | Ok q =>
        match t !! Fs.join q n with
        | Some _ => Raise FileExistsError
        | None => Ok (Fs.join q n, <[Fs.join q n := File []]> t)
        end
    | Raise e => Raise e
    end.
Proof.
  unfold Fs.open_excl. rewrite entry_join.
  destruct (Fs.opendir t d); reflexivity.
Qed.

Lemma mkstemp_inner_Raise (t : fs) (d : path) (names : nat -> string) (e : exn) :
  Fs.opendir t d = Raise e ->
  forall seq tries, (0 < tries)%nat -> Fs._mkstemp_inner d names seq tries t = Raise e.
Proof.
  intros Hd seq [|tries] Hpos; [lia|].
  simpl. rewrite open_excl_join, Hd.
  destruct e; try reflexivity.
  exfalso. exact (opendir_not_FileExistsError _ _ Hd).
Qed.

Lemma mkstemp_inner_Ok (t : fs) (d : path) (names : nat -> string) :
  forall tries seq fd tp t',
    Fs._mkstemp_inner d names seq tries t = Ok ((fd, tp), t') ->
    exists q n, Fs.opendir t d = Ok q /\ fd = Fs.join q ("tmp" +:+ n)
                /\ tp = Fs.join d ("tmp" +:+ n) /\ t !! fd = None
                /\ t' = <[fd := File []]> t.
Proof.
  induction tries as [|tries IH]; intros seq fd tp t'; simpl; [discriminate|].
  rewrite open_excl_join.
  destruct (Fs.opendir t d) as [q|e] eqn:Hd.
  - destruct (t !! Fs.join q ("tmp" +:+ names seq)) eqn:Hn.
    + apply IH.
    + intros [= <- <- <-]. exists q, (names seq). auto.
  - destruct e; try discriminate.
    exfalso. exact (opendir_not_FileExistsError _ _ Hd).
Qed.

Lemma mkstemp_inner_Raise_inv (t : fs) (d q : path) (names : nat -> string) :
  Fs.opendir t d = Ok q ->
  forall tries seq e,
    Fs._mkstemp_inner d names seq tries t = Raise e -> e = FileExistsError.
Proof.
  intros Hd. induction tries as [|tries IH]; intros seq e; simpl.
  - intros [= <-]. reflexivity.
  - rewrite open_excl_join, Hd.
    destruct (t !! Fs.join q ("tmp" +:+ names seq)); [apply IH | discriminate].
Qed.

Lemma TMP_MAX_pos : (0 < Fs.TMP_MAX)%nat.
Proof. unfold Fs.TMP_MAX. lia. Qed.

Lemma tmp_not_received_output (n : string) : "tmp" +:+ n <> "received-output".
Proof. simpl. discriminate. Qed.

(** The rename of the full temporary file over the destination. *)
Lemma rename_tmp (t : fs) (d q : path) (n : string) (data : list byte) :
  Fs.opendir t d = Ok q ->
  t !! Fs.join q ("tmp" +:+ n) = None ->
  Fs.rename (Fs.join d ("tmp" +:+ n)) (Fs.join d "received-output")
    (<[Fs.join q ("tmp" +:+ n) := File data]> t) =
  match t !! Fs.join q "received-output" with
  | Some Dir => Raise IsADirectoryError
  | _ => Ok (<[Fs.join q "received-output" := File data]> t)
  end.
Proof.
  intros Hd Hn.
  assert (Hne : Fs.join q ("tmp" +:+ n) <> Fs.join q "received-output").
  { intros H. apply join_inj in H as [_ H]. exact (tmp_not_received_output _ H). }
  pose proof (opendir_insert_fresh t _ (File data) d q Hn Hd) as Hd'.
  unfold Fs.rename.
  rewrite (entry_join_Ok _ _ _ _ Hd'). simpl.
  rewrite lookup_insert_eq.
  rewrite (entry_join_Ok _ _ _ _ Hd'). simpl.
  rewrite bool_decide_eq_false_2 by exact Hne.
  rewrite lookup_insert_ne by exact Hne.
  rewrite (delete_insert_id _ _ _ Hn).
  destruct (t !! Fs.join q "received-output") as [[| |]|]; reflexivity.
Qed.

Section UploadFacts.
Variables AGENT_OUTPUT_DIR REGISTRATION_REQUESTS : path.
Variable names : nat -> string.
Variable write_fault : option nat.
Variable others : fs -> fs.

Local Abbreviation store := (store_payload AGENT_OUTPUT_DIR names write_fault).
Local Abbreviation upload :=
  (agent_data AGENT_OUTPUT_DIR REGISTRATION_REQUESTS names write_fault others).
Local Abbreviation promotion := (promote REGISTRATION_REQUESTS others).

Lemma store_payload_unfold (uuid : string) (data : list byte) (t : fs) :
  store uuid data t =
    match Fs._mkstemp_inner (Fs.join AGENT_OUTPUT_DIR uuid) names 0 Fs.TMP_MAX t with
    | Raise e => (Raise e, t)
    | Ok ((fd, tp), t1) =>
        match write_fault with
        | Some k => (Raise (OSError "ENOSPC"), <[fd := File (take k data)]> t1)
        | None =>
            match Fs.rename tp (Fs.join (Fs.join AGENT_OUTPUT_DIR uuid) "received-output")
                    (<[fd := File data]> t1) with
            | Ok t3 => (Ok tt, t3)
            | Raise e => (Raise e, <[fd := File data]> t1)
            end
        end
    end.
Proof.
  unfold store_payload, bindM, mkstemp, copyfileobj, update.
  destruct (Fs._mkstemp_inner _ names 0 Fs.TMP_MAX t) as [[[fd tp] t1]|e]; [|reflexivity].
  destruct write_fault; [reflexivity|].
  destruct (Fs.rename _ _ _); reflexivity.
Qed.

(** The runs of the store: no temporary file could be made; the write
    failed and left a partial temporary file; the rename failed on a
    directory at the destination; or the payload is at the destination. *)
Lemma store_payload_cases (uuid : string) (data : list byte) (t t' : fs) (r : result unit) :
  store uuid data t = (r, t') ->
  (exists e, r = Raise e /\ t' = t)
  \/ exists q n,
       Fs.opendir t (Fs.join AGENT_OUTPUT_DIR uuid) = Ok q
       /\ t !! Fs.join q ("tmp" +:+ n) = None
       /\ Fs._mkstemp_inner (Fs.join AGENT_OUTPUT_DIR uuid) names 0 Fs.TMP_MAX t =
            Ok ((Fs.join q ("tmp" +:+ n), Fs.join (Fs.join AGENT_OUTPUT_DIR uuid) ("tmp" +:+ n)),
                <[Fs.join q ("tmp" +:+ n) := File []]> t)
       /\ ((exists k, write_fault = Some k /\ r = Raise (OSError "ENOSPC")
                      /\ t' = <[Fs.join q ("tmp" +:+ n) := File (take k data)]> t)
           \/ (write_fault = None /\ t !! Fs.join q "received-output" = Some Dir
               /\ r = Raise IsADirectoryError
               /\ t' = <[Fs.join q ("tmp" +:+ n) := File data]> t)
           \/ (write_fault = None /\ t !! Fs.join q "received-output" <> Some Dir
               /\ r = Ok tt
               /\ t' = <[Fs.join q "received-output" := File data]> t)).
Proof.
  rewrite store_payload_unfold.
  destruct (Fs._mkstemp_inner _ names 0 Fs.TMP_MAX t) as [[[fd tp] t1]|e] eqn:Emk.
  - destruct (mkstemp_inner_Ok _ _ _ _ _ _ _ _ Emk) as (q & n & Hd & -> & -> & Hn & ->).
    intros Hrun. right. exists q, n.
    split; [exact Hd|]. split; [exact Hn|]. split; [reflexivity|].
    destruct write_fault as [k|]; rewrite insert_insert_eq in Hrun.
    + left. exists k. injection Hrun as <- <-. auto.
    + right. rewrite (rename_tmp _ _ _ _ _ Hd Hn) in Hrun.
      destruct (t !! Fs.join q "received-output") as [[| |]|] eqn:Hdest;
        injection Hrun as <- <-;
        [left; auto | right; repeat split; auto; discriminate ..].
  - intros [= <- <-]. left. eauto.
Qed.


Lemma promote_unfold (uuid : string) (hostname : option string) (t : fs) :
  promotion uuid hostname t =
    if Fs.exists_ t (ready_file REGISTRATION_REQUESTS uuid) && truthy hostname then
      match Fs.move (ready_file REGISTRATION_REQUESTS uuid)
              (discoverable_file REGISTRATION_REQUESTS (default EmptyString hostname))
              (others t) with
      | Ok t' => (Ok tt, t')
      | Raise FileNotFoundError => (Ok tt, others t)
      | Raise e => (Raise e, others t)
      end
    else (Ok tt, t).
Proof.
  unfold promote, bindM, observe, interference, try_FileNotFoundError, update, ret.
  destruct (Fs.exists_ t _ && truthy hostname); [|reflexivity].
  destruct (Fs.move _ _ (others t)) as [t'|[]]; reflexivity.
Qed.

Lemma agent_data_unfold (uuid : string) (data : list byte) (t : fs) :
  upload uuid data t =
    match store uuid data t with
    | (Raise FileNotFoundError, t1) =>
        (Raise (HTTPException 403 "Host is not registered"), t1)
    | (Raise e, t1) => (Raise e, t1)
    | (Ok _, t1) =>
        match get_hostname AGENT_OUTPUT_DIR uuid t1 with
        | (Raise e, t2) => (Raise e, t2)
        | (Ok hostname, t2) =>
            match promotion uuid hostname t2 with
            | (Raise e, t3) => (Raise e, t3)
            | (Ok _, t3) => (Ok message_saved, t3)
            end
        end
    end.
Proof.
  unfold agent_data, bindM, try_FileNotFoundError, raise, ret.
  destruct (store uuid data t) as [[[]|[]] t1]; reflexivity.
Qed.

End UploadFacts.

(** One more component after a directory, when the entry is not a link. *)
Lemma walk_snoc (t : fs) (c : string) :
  forall fuel cur p q,
    Fs.walk fuel t cur p = Ok (q, Dir) -> no_link (t !! Fs.join q c) ->
    Fs.walk fuel t cur (p ++ [c]) =
      match t !! Fs.join q c with
      | None => Raise FileNotFoundError
      | Some n => Ok (Fs.join q c, n)
      end.
Proof.
  induction fuel as [|fuel IHf]; intros cur p; revert cur;
    induction p as [|a p IHp]; intros cur q.
  all: try (rewrite walk_nil; intros [= <-] Hc;
            change ([] ++ [c])%list with [c]; rewrite walk_cons, walk_nil;
            destruct (t !! Fs.join cur c) as [[| |]|]; (reflexivity || contradiction)).
  all: change ((a :: p) ++ [c])%list with (a :: (p ++ [c]))%list; rewrite !walk_cons;
    destruct (t !! Fs.join cur a) as [[|x|target]|]; try discriminate;
    try apply IHp; try (destruct p; discriminate).
  rewrite app_assoc. apply IHf.
Qed.

Lemma stat_snoc (t : fs) (d q : path) (c : string) :
  Fs.opendir t d = Ok q -> no_link (t !! Fs.join q c) ->
  Fs.stat t (Fs.join d c) =
    match t !! Fs.join q c with
    | None => Raise FileNotFoundError
    | Some n => Ok (Fs.join q c, n)
    end.
Proof.
  unfold Fs.opendir, Fs.stat, Fs.join at 2. intros Hd Hc.
  destruct (Fs.walk Fs.MAXSYMLINKS t [] d) as [[q' [| |]]|e] eqn:E; try discriminate.
  injection Hd as ->. exact (walk_snoc _ _ _ _ _ _ E Hc).
Qed.

Lemma stat_no_entry (t : fs) (d q : path) (c : string) :
  Fs.opendir t d = Ok q -> t !! Fs.join q c = None ->
  Fs.stat t (Fs.join d c) = Raise FileNotFoundError.
Proof.
  intros Hd Hc. rewrite (stat_snoc _ _ _ _ Hd); rewrite Hc; [reflexivity | exact I].
Qed.

Lemma same_skeleton_sym (t t' : fs) : same_skeleton t t' -> same_skeleton t' t.
Proof. intros H k. destruct (H k) as [E|[? ?]]; auto. Qed.

Lemma same_skeleton_trans (t1 t2 t3 : fs) :
  same_skeleton t1 t2 -> same_skeleton t2 t3 -> same_skeleton t1 t3.
Proof.
  intros H12 H23 k. destruct (H12 k) as [E|[L1 L2]], (H23 k) as [E'|[L2' L3]].
  - left. congruence.
  - right. rewrite E. auto.
  - right. rewrite <- E'. auto.
  - right. auto.
Qed.

Lemma same_skeleton_insert_file (t : fs) (k : path) (c : list byte) :
  leaf (t !! k) -> same_skeleton t (<[k := File c]> t).
Proof.
  intros Hk k'. destruct (decide (k = k')) as [<-|Hne].
  - right. rewrite lookup_insert_eq. split; [exact Hk | exact I].
  - left. rewrite lookup_insert_ne by exact Hne. reflexivity.
Qed.

Lemma same_skeleton_delete_file (t : fs) (k : path) :
  leaf (t !! k) -> same_skeleton t (delete k t).
Proof.
  intros Hk k'. destruct (decide (k = k')) as [<-|Hne].
  - right. rewrite lookup_delete_eq. split; [exact Hk | exact I].
  - left. rewrite lookup_delete_ne by exact Hne. reflexivity.
Qed.

Lemma walk_same_skeleton (t t' : fs) :
  same_skeleton t t' ->
  forall fuel cur rest q,
    Fs.walk fuel t cur rest = Ok (q, Dir) -> Fs.walk fuel t' cur rest = Ok (q, Dir).
Proof.
  intros Hs. induction fuel as [|fuel IHf]; intros cur rest; revert cur;
    induction rest as [|c rest IHr]; intros cur q;
    rewrite ?walk_nil, ?walk_cons; auto;
    (destruct (Hs (Fs.join cur c)) as [<-|[L L']];
     [destruct (t !! Fs.join cur c) as [[| |target]|]; auto
     |destruct (t !! Fs.join cur c) as [[| |target]|]; try contradiction;
      try discriminate; destruct rest; discriminate]).
Qed.

Lemma opendir_same_skeleton (t t' : fs) (d q : path) :
  same_skeleton t t' -> Fs.opendir t d = Ok q -> Fs.opendir t' d = Ok q.
Proof.
  unfold Fs.opendir, Fs.stat. intros Hs H.
  destruct (Fs.walk Fs.MAXSYMLINKS t [] d) as [[q' [| |]]|e] eqn:E; try discriminate.
  injection H as ->. rewrite (walk_same_skeleton _ _ Hs _ _ _ _ E). reflexivity.
Qed.

Lemma isdir_same_skeleton (t t' : fs) (p : path) :
  same_skeleton t t' -> Fs.isdir t p = false -> Fs.isdir t' p = false.
Proof.
  intros Hs. unfold Fs.isdir, Fs.stat.
  destruct (Fs.walk Fs.MAXSYMLINKS t' [] p) as [[q [| |]]|e] eqn:E; try reflexivity.
  rewrite (walk_same_skeleton _ _ (same_skeleton_sym _ _ Hs) _ _ _ _ E). discriminate.
Qed.







(** ** The READY request and its promotion *)

Lemma entry_same_skeleton (t t' : fs) (p a : path) (o : option node) :
  same_skeleton t t' -> Fs.entry t p = Ok (a, o) -> Fs.entry t' p = Ok (a, t' !! a).
Proof.
  unfold Fs.entry. intros Hs H.
  destruct (Fs.opendir t (Fs.parent p)) as [d|e] eqn:E; [|discriminate].
  rewrite (opendir_same_skeleton _ _ _ _ Hs E). simpl in *.
  injection H as <- _. reflexivity.
Qed.

Lemma entry_lookup (t : fs) (p a : path) (o : option node) :
  Fs.entry t p = Ok (a, o) -> o = t !! a.
Proof.
  unfold Fs.entry. destruct (Fs.opendir t (Fs.parent p)); simpl; [|discriminate].
  intros [= <- <-]. reflexivity.
Qed.

Lemma entry_name (t : fs) (p a : path) (o : option node) :
  Fs.entry t p = Ok (a, o) -> Fs.name a = Fs.name p.
Proof.
  unfold Fs.entry. destruct (Fs.opendir t (Fs.parent p)); simpl; [|discriminate].
  intros [= <- _]. apply name_join.
Qed.

Lemma readlink_same_skeleton (t t' : fs) (p target : path) :
  same_skeleton t t' -> Fs.readlink p t = Ok target -> Fs.readlink p t' = Ok target.
Proof.
  intros Hs H. destruct (readlink_Ok_entry _ _ _ H) as [a Ha].
  unfold Fs.readlink. rewrite (entry_same_skeleton _ _ _ _ _ Hs Ha). simpl.
  pose proof (entry_lookup _ _ _ _ Ha) as Hl.
  destruct (Hs a) as [<-|[L _]].
  - rewrite <- Hl. reflexivity.
  - rewrite <- Hl in L. contradiction.
Qed.

(** [os.rename] of a file to another place that is not a directory. *)
Lemma rename_file (t : fs) (src dst a b : path) (c : list byte) :
  Fs.entry t src = Ok (a, Some (File c)) ->
  Fs.entry t dst = Ok (b, t !! b) ->
  a <> b -> t !! b <> Some Dir ->
  Fs.rename src dst t = Ok (<[b := File c]> (delete a t)).
Proof.
  intros Hsrc Hdst Hne Hdir. unfold Fs.rename. rewrite Hsrc. simpl. rewrite Hdst. simpl.
  rewrite bool_decide_eq_false_2 by exact Hne.
  destruct (t !! b) as [[| |]|]; try reflexivity. exfalso. apply Hdir. reflexivity.
Qed.

Lemma json_not_received_output (u : string) : u +:+ ".json" <> "received-output".
Proof.
  intros H.
  do 15 (destruct u as [|? u]; [discriminate H|]; simpl in H; injection H as _ H).
  destruct u; discriminate H.
Qed.

Lemma name_json_not_received_output (d k : path) (u : string) :
  Fs.name k = u +:+ ".json" -> k <> Fs.join d "received-output".
Proof.
  intros Hk ->. rewrite name_join in Hk. symmetry in Hk.
  exact (json_not_received_output _ Hk).
Qed.

Lemma component_truthy (h : string) : Fs.component h = true -> truthy (Some h) = true.
Proof. destruct h; [discriminate | reflexivity]. Qed.

Section PromotionFacts.
Variables AGENT_OUTPUT_DIR DATA_SOURCE_DIR REGISTRATION_REQUESTS : path.
Variable names : nat -> string.
Variable write_fault : option nat.

Local Abbreviation ready := (ready_file REGISTRATION_REQUESTS).
Local Abbreviation discoverable := (discoverable_file REGISTRATION_REQUESTS).

(** A successful store puts the payload at the destination and nothing
    else. *)
Lemma store_payload_Ok (uuid : string) (data : list byte) (t t1 : fs) (d : path) :
  Fs.opendir t (Fs.join AGENT_OUTPUT_DIR uuid) = Ok d ->
  store_payload AGENT_OUTPUT_DIR names write_fault uuid data t = (Ok tt, t1) ->
  t !! Fs.join d "received-output" <> Some Dir
  /\ t1 = <[Fs.join d "received-output" := File data]> t.
Proof.
  intros Hd Hstore.
  destruct (store_payload_cases _ _ _ _ _ _ _ _ Hstore)
    as [(e & He & _) | (q & n & Hq & _ & _ & Hcases)]; [discriminate|].
  rewrite Hd in Hq. injection Hq as <-.
  destruct Hcases as [(k & _ & He & _) | [(_ & _ & He & _) | (_ & Hdest & _ & ->)]];
    try discriminate.
  auto.
Qed.

Lemma agent_data_Ok_inv (others : fs -> fs) (uuid : string) (data : list byte)
    (t t' : fs) (msg : json) :
  agent_data AGENT_OUTPUT_DIR REGISTRATION_REQUESTS names write_fault others uuid data t
    = (Ok msg, t') ->
  exists t1 hostname,
    store_payload AGENT_OUTPUT_DIR names write_fault uuid data t = (Ok tt, t1)
    /\ get_hostname AGENT_OUTPUT_DIR uuid t1 = (Ok hostname, t1)
    /\ promote REGISTRATION_REQUESTS others uuid hostname t1 = (Ok tt, t')
    /\ msg = message_saved.
Proof.
  rewrite agent_data_unfold.
  destruct (store_payload _ _ _ uuid data t) as [[[]|e] t1]; [|destruct e; discriminate].
  pose proof (get_hostname_unfold AGENT_OUTPUT_DIR uuid t1) as Hget.
  destruct (get_hostname AGENT_OUTPUT_DIR uuid t1) as [[hostname|e] t2] eqn:Hg;
    [|discriminate].
  assert (t2 = t1) as ->.
  { destruct (Fs.readlink _ t1) as [target|[]]; congruence. }
  destruct (promote _ _ uuid hostname t1) as [[[]|e] t3] eqn:E; [|discriminate].
  intros [= <- <-]. exists t1, hostname. auto.
Qed.

Lemma promotion_after_link (uuid H : string) (data c : list byte)
    (t t' : fs) (d a b : path) (msg : json) :
  Fs.component H = true ->
  Fs.readlink (Fs.join AGENT_OUTPUT_DIR uuid) t = Ok (Fs.join DATA_SOURCE_DIR H) ->
  Fs.opendir t (Fs.join AGENT_OUTPUT_DIR uuid) = Ok d ->
  no_link (t !! Fs.join d "received-output") ->
  Fs.entry t (ready uuid) = Ok (a, Some (File c)) ->
  Fs.entry t (discoverable H) = Ok (b, t !! b) ->
  Fs.isdir t (discoverable H) = false ->
  a <> b ->
  agent_data AGENT_OUTPUT_DIR REGISTRATION_REQUESTS names write_fault id uuid data t
    = (Ok msg, t') ->
  t' = <[b := File c]> (delete a (<[Fs.join d "received-output" := File data]> t)).
Proof.
  intros HH Hlink Hd Hpayload Hready Hdisc Hnotdir Hab Hrun.
  destruct (agent_data_Ok_inv _ _ _ _ _ _ Hrun) as (t1 & hostname & Hstore & Hhost & Hprom & _).
  destruct (store_payload_Ok _ _ _ _ _ Hd Hstore) as [Hdest ->].
  set (dest := Fs.join d "received-output") in *.
  set (t1 := <[dest := File data]> t) in *.
  assert (Hs : same_skeleton t t1).
  { apply same_skeleton_insert_file. destruct (t !! dest) as [[| |]|]; try exact I.
    - apply Hdest. reflexivity.
    - exact Hpayload. }
  (* the host name *)
  rewrite get_hostname_unfold, (readlink_same_skeleton _ _ _ _ Hs Hlink) in Hhost.
  rewrite name_join in Hhost. injection Hhost as <-.
  (* the READY file is seen *)
  assert (Ha : a <> dest).
  { apply name_json_not_received_output with (u := uuid).
    rewrite (entry_name _ _ _ _ Hready). apply name_join. }
  assert (Hb : b <> dest).
  { apply name_json_not_received_output with (u := H).
    rewrite (entry_name _ _ _ _ Hdisc). apply name_join. }
  assert (Hready1 : Fs.entry t1 (ready uuid) = Ok (a, Some (File c))).
  { rewrite (entry_same_skeleton _ _ _ _ _ Hs Hready). unfold t1.
    rewrite lookup_insert_ne by (intros E; apply Ha; symmetry; exact E).
    rewrite <- (entry_lookup _ _ _ _ Hready). reflexivity. }
  assert (Hdisc1 : Fs.entry t1 (discoverable H) = Ok (b, t1 !! b))
    by exact (entry_same_skeleton _ _ _ _ _ Hs Hdisc).
  assert (Hseen : Fs.exists_ t1 (ready uuid) = true).
  { unfold Fs.exists_, ready_file. unfold Fs.entry, ready_file in Hready1.
    rewrite parent_join, name_join in Hready1.
    destruct (Fs.opendir t1 (Fs.join REGISTRATION_REQUESTS "READY")) as [dr|e] eqn:Hdr;
      [|discriminate].
    simpl in Hready1. injection Hready1 as <- Hl.
    rewrite (stat_snoc _ _ _ _ Hdr); rewrite Hl; [reflexivity | exact I]. }
  (* the move *)
  rewrite promote_unfold, Hseen, (component_truthy _ HH) in Hprom. simpl in Hprom.
  unfold Fs.move, id in Hprom.
  rewrite (isdir_same_skeleton _ _ _ Hs Hnotdir) in Hprom. simpl in Hprom.
  assert (Hbdir : t1 !! b <> Some Dir).
  { unfold t1. rewrite lookup_insert_ne by (intros E; apply Hb; symmetry; exact E).
    intros Hbd. unfold Fs.isdir, discoverable_file in Hnotdir.
    unfold Fs.entry, discoverable_file in Hdisc. rewrite parent_join, name_join in Hdisc.
    destruct (Fs.opendir t (Fs.join REGISTRATION_REQUESTS "DISCOVERABLE")) as [dd|e] eqn:Hdd;
      [|discriminate].
    simpl in Hdisc. injection Hdisc as <- _.
    rewrite (stat_snoc _ _ _ _ Hdd) in Hnotdir; rewrite Hbd in *;
      [discriminate | exact I]. }
  rewrite (rename_file _ _ _ _ _ _ Hready1 Hdisc1 Hab Hbdir) in Hprom.
  injection Hprom as <-. reflexivity.
Qed.

End PromotionFacts.

Lemma readlink_insert_file_inv (t : fs) (k p target : path) (c : list byte) :
  Fs.readlink p (<[k := File c]> t) = Ok target -> Fs.readlink p t = Ok target.
Proof.
  unfold Fs.readlink, Fs.entry.
  destruct (opendir_insert_file t k c (Fs.parent p)) as [-> | ->]; [|discriminate].
  destruct (Fs.opendir t (Fs.parent p)) as [d|e]; simpl; [|discriminate].
  destruct (decide (k = Fs.join d (Fs.name p))) as [<-|Hne].
  - rewrite lookup_insert_eq. discriminate.
  - rewrite lookup_insert_ne by exact Hne. auto.
Qed.

Section WithoutLink.
Variables AGENT_OUTPUT_DIR REGISTRATION_REQUESTS : path.
Variable names : nat -> string.
Variable write_fault : option nat.
Variable others : fs -> fs.

(** Without a link for the uuid, an upload changes at most one file of the
    output directory: the destination, or a temporary file it leaves. *)
Lemma agent_data_without_link (uuid : string) (data : list byte) (t t' : fs)
    (r : result json) :
  (forall target, Fs.readlink (Fs.join AGENT_OUTPUT_DIR uuid) t <> Ok target) ->
  agent_data AGENT_OUTPUT_DIR REGISTRATION_REQUESTS names write_fault others uuid data t
    = (r, t') ->
  t' = t
  \/ exists d c,
       Fs.opendir t (Fs.join AGENT_OUTPUT_DIR uuid) = Ok d
       /\ ((exists n, t !! Fs.join d ("tmp" +:+ n) = None
                      /\ t' = <[Fs.join d ("tmp" +:+ n) := File c]> t)
           \/ t' = <[Fs.join d "received-output" := File c]> t).
Proof.
  intros Hnolink. rewrite agent_data_unfold.
  destruct (store_payload AGENT_OUTPUT_DIR names write_fault uuid data t) as [rs t1] eqn:Hstore.
  destruct (store_payload_cases _ _ _ _ _ _ _ _ Hstore)
    as [(e & -> & ->) | (q & n & Hq & Hn & _ & Hcases)].
  - intros Hrun. left. destruct e; congruence.
  - destruct Hcases as [(k & _ & -> & ->) | [(_ & _ & -> & ->) | (_ & _ & -> & ->)]].
    + intros [= <- <-]. right. exists q, (take k data). eauto.
    + intros [= <- <-]. right. exists q, data. eauto.
    + rewrite get_hostname_unfold.
      destruct (Fs.readlink (Fs.join AGENT_OUTPUT_DIR uuid)
                  (<[Fs.join q "received-output" := File data]> t)) as [target|e] eqn:Hl.
      * exfalso. exact (Hnolink _ (readlink_insert_file_inv _ _ _ _ _ Hl)).
      * intros Hrun. right. exists q, data. split; [exact Hq|]. right.
        destruct e; try congruence.
        rewrite promote_unfold in Hrun. unfold truthy in Hrun.
        rewrite andb_false_r in Hrun. congruence.
Qed.

End WithoutLink.

(** An upload that raises, with no other process at work, has changed at
    most one file of the output directory: [shutil.move] was not reached, or
    it raised and moved nothing. *)
Lemma agent_data_Raise_touches
    (AGENT_OUTPUT_DIR REGISTRATION_REQUESTS : path) (names : nat -> string)
    (write_fault : option nat) (uuid : string) (data : list byte) (t t' : fs) (e : exn) :
  agent_data AGENT_OUTPUT_DIR REGISTRATION_REQUESTS names write_fault id uuid data t
    = (Raise e, t') ->
  t' = t
  \/ exists d c,
       Fs.opendir t (Fs.join AGENT_OUTPUT_DIR uuid) = Ok d
       /\ ((exists n, t !! Fs.join d ("tmp" +:+ n) = None
                      /\ t' = <[Fs.join d ("tmp" +:+ n) := File c]> t)
           \/ t' = <[Fs.join d "received-output" := File c]> t).
Proof.
  rewrite agent_data_unfold.
  destruct (store_payload AGENT_OUTPUT_DIR names write_fault uuid data t) as [rs t1] eqn:Hstore.
  destruct (store_payload_cases _ _ _ _ _ _ _ _ Hstore)
    as [(e0 & -> & ->) | (q & n & Hq & Hn & _ & Hcases)].
  - intros Hrun. left. destruct e0; congruence.
  - destruct Hcases as [(k & _ & -> & ->) | [(_ & _ & -> & ->) | (_ & _ & -> & ->)]].
    + intros [= <- <-]. right. exists q, (take k data). eauto.
    + intros [= <- <-]. right. exists q, data. eauto.
    + intros Hrun. right. exists q, data. split; [exact Hq|]. right.
      set (t1 := <[Fs.join q "received-output" := File data]> t) in *.
      destruct (get_hostname AGENT_OUTPUT_DIR uuid t1) as [[hostname|e1] t2] eqn:Hg.
      * assert (t2 = t1) as ->.
        { rewrite get_hostname_unfold in Hg.
          destruct (Fs.readlink (Fs.join AGENT_OUTPUT_DIR uuid) t1) as [target|[]];
            congruence. }
        rewrite promote_unfold in Hrun. unfold id in Hrun.
        destruct (Fs.exists_ t1 _ && truthy hostname); [|discriminate].
        destruct (Fs.move _ _ t1) as [t3|[]]; congruence.
      * assert (t2 = t1) as ->.
        { rewrite get_hostname_unfold in Hg.
          destruct (Fs.readlink (Fs.join AGENT_OUTPUT_DIR uuid) t1) as [target|[]];
            congruence. }
        congruence.
Qed.


(** C3: for a uuid linked to the host H whose READY request is a file, an
    upload that succeeds moves the request to the entry [H.json] of the
    DISCOVERABLE directory, and the READY place is empty afterwards; an
    upload for a uuid without a link, whatever its outcome, and an upload
    that raises, linked or not, leave every existing file named
    [<uuid>.json] where it is.  The tree is the laid-out
    one: the stored payload is no link, READY and DISCOVERABLE are different
    places, and the entry [H.json] is not a directory; no other process
    touches the tree during the upload. *)
Theorem agent_data_promotes_ready_request
    (AGENT_OUTPUT_DIR DATA_SOURCE_DIR REGISTRATION_REQUESTS : path)
    (names : nat -> string) (write_fault : option nat)
    (uuid H : string) (upload_file : list byte) (t : fs) :
  Fs.component uuid = true ->
  Fs.component H = true ->
  (forall (d a b : path) (c : list byte) (msg : json) (t' : fs),
     Fs.readlink (Fs.join AGENT_OUTPUT_DIR uuid) t = Ok (Fs.join DATA_SOURCE_DIR H) ->
     Fs.opendir t (Fs.join AGENT_OUTPUT_DIR uuid) = Ok d ->
     no_link (t !! Fs.join d "received-output") ->
     Fs.entry t (ready_file REGISTRATION_REQUESTS uuid) = Ok (a, Some (File c)) ->
     Fs.entry t (discoverable_file REGISTRATION_REQUESTS H) = Ok (b, t !! b) ->
     Fs.isdir t (discoverable_file REGISTRATION_REQUESTS H) = false ->
     a <> b ->
     agent_data AGENT_OUTPUT_DIR REGISTRATION_REQUESTS names write_fault id
       uuid upload_file t = (Ok msg, t') ->
     t' !! b = Some (File c) /\ t' !! a = None)
  /\ (forall (others : fs -> fs) (r : result json) (t' : fs),
        (forall target, Fs.readlink (Fs.join AGENT_OUTPUT_DIR uuid) t <> Ok target) ->
        agent_data AGENT_OUTPUT_DIR REGISTRATION_REQUESTS names write_fault others
          uuid upload_file t = (r, t') ->
        forall k, is_Some (t !! k) -> Fs.name k = uuid +:+ ".json" ->
          t' !! k = t !! k)
  /\ (forall (e : exn) (t' : fs),
        agent_data AGENT_OUTPUT_DIR REGISTRATION_REQUESTS names write_fault id
          uuid upload_file t = (Raise e, t') ->
        forall k, is_Some (t !! k) -> Fs.name k = uuid +:+ ".json" ->
          t' !! k = t !! k).
Proof.
  intros _ HH. split; [|split].
  - intros d a b c msg t' Hlink Hd Hpayload Hready Hdisc Hnotdir Hab Hrun.
    rewrite (promotion_after_link _ _ _ _ _ _ _ _ _ _ _ _ _ _ _ HH Hlink Hd Hpayload
               Hready Hdisc Hnotdir Hab Hrun).
    split.
    + apply lookup_insert_eq.
    + rewrite lookup_insert_ne by (intros E; apply Hab; symmetry; exact E).
      apply lookup_delete_eq.
  - intros others r t' Hnolink Hrun k [x Hx] Hname.
    destruct (agent_data_without_link _ _ _ _ _ _ _ _ _ _ Hnolink Hrun)
      as [-> | (d & c & _ & [(n & Hn & ->) | ->])]; [reflexivity | |].
    + apply lookup_insert_ne. intros <-. rewrite Hn in Hx. discriminate.
    + apply lookup_insert_ne. intros E. symmetry in E. revert E.
      apply name_json_not_received_output with (u := uuid). exact Hname.
  - intros e t' Hrun k [x Hx] Hname.
    destruct (agent_data_Raise_touches _ _ _ _ _ _ _ _ _ Hrun)
      as [-> | (d & c & _ & [(n & Hn & ->) | ->])]; [reflexivity | |].
    + apply lookup_insert_ne. intros <-. rewrite Hn in Hx. discriminate.
    + apply lookup_insert_ne. intros E. symmetry in E. revert E.
      apply name_json_not_received_output with (u := uuid). exact Hname.
Qed.

Lemma agent_data_promotes_ready_request_witness :
  let t' := (agent_data agent_output_dir registration_requests one_name None id
               "uuid-1" payload1 linked_tree).2 in
  t' !! Fs.join (Fs.join registration_requests "DISCOVERABLE") "heute.json" = Some (File [])
  /\ t' !! Fs.join (Fs.join registration_requests "READY") "uuid-1.json" = None.
Proof.
  refine (proj1 (agent_data_promotes_ready_request
            agent_output_dir data_source_dir registration_requests one_name None
            "uuid-1" "heute" payload1 linked_tree eq_refl eq_refl)
            (Fs.join data_source_dir "heute") _ _ [] message_saved _ _ _ _ _ _ _ _ _).
  - vm_compute. reflexivity.
  - vm_compute. reflexivity.
  - vm_compute. exact I.
  - vm_compute. reflexivity.
  - vm_compute. reflexivity.
  - vm_compute. reflexivity.
  - vm_compute. discriminate.
  - apply run_pair. vm_compute. reflexivity.
Defined.

(** ** A lost race *)

(** [shutil.move] of a source that is gone raises [FileNotFoundError] and
    changes nothing, unless the destination is a directory that already has
    an entry of the source's name. *)
Lemma move_gone (s : fs) (p a dst : path) (n : string) :
  Fs.entry s (Fs.join p n) = Ok (a, None) ->
  Fs.isdir s dst && Fs.exists_ s (Fs.join dst n) = false ->
  Fs.move (Fs.join p n) dst s = Raise FileNotFoundError.
Proof.
  intros Hsrc Hdst.
  assert (Hstat : Fs.stat s (Fs.join p n) = Raise FileNotFoundError).
  { rewrite entry_join in Hsrc.
    destruct (Fs.opendir s p) as [d|e] eqn:Hd; [|discriminate]. simpl in Hsrc.
    injection Hsrc as <- Hnone. exact (stat_no_entry _ _ _ _ Hd Hnone). }
  assert (Hfall : forall real_dst,
            match Fs.rename (Fs.join p n) real_dst s with
            | Ok t' => Ok t'
            | Raise e =>
                if Fs.islink s (Fs.join p n) then
                  let* target := Fs.readlink (Fs.join p n) s in
                  let* t1 := Fs.symlink target real_dst s in
                  Fs.unlink (Fs.join p n) t1
                else if Fs.isdir s (Fs.join p n) then Raise e
                else
                  let* t1 := Fs.copy2 (Fs.join p n) real_dst s in
                  Fs.unlink (Fs.join p n) t1
            end = Raise FileNotFoundError).
  { intros real_dst. unfold Fs.rename, Fs.islink, Fs.isdir, Fs.copy2, Fs.read_file.
    rewrite Hsrc, Hstat. reflexivity. }
  unfold Fs.move. rewrite name_join.
  destruct (Fs.isdir s dst); simpl in Hdst.
  - rewrite Hdst. simpl. apply Hfall.
  - simpl. apply Hfall.
Qed.

(** C7: when the READY request is seen by the test but is gone when the
    move runs, the move raises [FileNotFoundError], the handler catches it,
    the promotion changes nothing, and the upload returns its message.  The
    payload is stored, the uuid resolves to a host name, and the entry of
    DISCOVERABLE is not a directory that holds the request's name already. *)
Theorem agent_data_tolerates_lost_race
    (AGENT_OUTPUT_DIR REGISTRATION_REQUESTS : path)
    (names : nat -> string) (write_fault : option nat) (others : fs -> fs)
    (uuid : string) (upload_file : list byte) (t t1 : fs) (target a : path) :
  Fs.component uuid = true ->
  store_payload AGENT_OUTPUT_DIR names write_fault uuid upload_file t = (Ok tt, t1) ->
  Fs.readlink (Fs.join AGENT_OUTPUT_DIR uuid) t1 = Ok target ->
  truthy (Some (Fs.name target)) = true ->
  Fs.exists_ t1 (ready_file REGISTRATION_REQUESTS uuid) = true ->
  Fs.entry (others t1) (ready_file REGISTRATION_REQUESTS uuid) = Ok (a, None) ->
  Fs.isdir (others t1) (discoverable_file REGISTRATION_REQUESTS (Fs.name target))
  && Fs.exists_ (others t1)
       (Fs.join (discoverable_file REGISTRATION_REQUESTS (Fs.name target)) (uuid +:+ ".json"))
  = false ->
  promote REGISTRATION_REQUESTS others uuid (Some (Fs.name target)) t1 = (Ok tt, others t1)
  /\ agent_data AGENT_OUTPUT_DIR REGISTRATION_REQUESTS names write_fault others
       uuid upload_file t = (Ok message_saved, others t1).
Proof.
  intros _ Hstore Hlink Hname Hseen Hgone Hdst.
  assert (Hprom : promote REGISTRATION_REQUESTS others uuid (Some (Fs.name target)) t1
                  = (Ok tt, others t1)).
  { rewrite promote_unfold, Hseen, Hname. simpl.
    unfold ready_file in *. rewrite (move_gone _ _ _ _ _ Hgone Hdst). reflexivity. }
  split; [exact Hprom|].
  rewrite agent_data_unfold, Hstore, get_hostname_unfold, Hlink, Hprom. reflexivity.
Qed.

Lemma agent_data_tolerates_lost_race_witness :
  let t1 := (store_payload agent_output_dir one_name None "uuid-1" payload1 linked_tree).2 in
  agent_data agent_output_dir registration_requests one_name None sweep
    "uuid-1" payload1 linked_tree = (Ok message_saved, sweep t1).
Proof.
  refine (proj2 (agent_data_tolerates_lost_race
            agent_output_dir registration_requests one_name None sweep
            "uuid-1" payload1 linked_tree _ (Fs.join data_source_dir "heute")
            (Fs.join (Fs.join registration_requests "READY") "uuid-1.json")
            eq_refl _ _ _ _ _ _)).
  - apply run_pair. vm_compute. reflexivity.
  - vm_compute. reflexivity.
  - vm_compute. reflexivity.
  - vm_compute. reflexivity.
  - vm_compute. reflexivity.
  - vm_compute. reflexivity.
Defined.

(** * Further properties of the forwarder and the handlers *)

(** ** Registration *)

Lemma register_with_hostname_forward_Raise
    (environ : gmap string string) (send : Request -> result Response)
    (AGENT_OUTPUT_DIR DATA_SOURCE_DIR : path)
    (authentication : option string) (registration_body : RegistrationWithHNBody)
    (e : exn) (t : fs) :
  _forward_get environ send ("objects/host_config/" +:+ host_name registration_body)
    (str authentication) = Raise e ->
  register_with_hostname environ send AGENT_OUTPUT_DIR DATA_SOURCE_DIR
    authentication registration_body t = (Raise e, t).
Proof.
  intros H. unfold register_with_hostname, bindM, lift, host_exists.
  rewrite H. reflexivity.
Qed.

(** The runs of [register_with_hostname]. *)
Lemma register_with_hostname_run
    (environ : gmap string string) (send : Request -> result Response)
    (AGENT_OUTPUT_DIR DATA_SOURCE_DIR : path)
    (authentication : option string) (registration_body : RegistrationWithHNBody)
    (t t' : fs) (r : result Response_) :
  register_with_hostname environ send AGENT_OUTPUT_DIR DATA_SOURCE_DIR
    authentication registration_body t = (r, t') ->
  (forall e, r = Raise e -> t' = t)
  /\ (forall resp, r = Ok resp ->
        response_status resp = 204
        /\ (exists site_resp,
              _forward_get environ send
                ("objects/host_config/" +:+ host_name registration_body)
                (str authentication) = Ok site_resp
              /\ status_code site_resp = 200)
        /\ exists q,
             Fs.opendir t AGENT_OUTPUT_DIR = Ok q
             /\ t !! Fs.join q (uuid registration_body) = None
             /\ t' = <[Fs.join q (uuid registration_body) :=
                         Symlink (Fs.join DATA_SOURCE_DIR (host_name registration_body))]> t)
  /\ (forall k, is_Some (t !! k) -> t' !! k = t !! k).
Proof.
  destruct (_forward_get environ send
              ("objects/host_config/" +:+ host_name registration_body)
              (str authentication)) as [site_resp|e0] eqn:Hget.
  - rewrite (register_with_hostname_unfold _ _ _ _ _ _ _ _ Hget).
    destruct (Z.eqb_spec (status_code site_resp) 200) as [Hs|Hs].
    + destruct (Fs.symlink _ _ t) as [t1|e1] eqn:Hl.
      * destruct (symlink_Ok_inv _ _ _ _ _ Hl) as (q & Hq & Hnone & ->).
        intros [= <- <-]. split; [discriminate|]. split.
        -- intros resp [= <-]. split; [reflexivity|]. split; eauto.
        -- intros k [x Hx]. apply lookup_insert_ne. intros <-. congruence.
      * intros [= <- <-]. split; [reflexivity|]. split; [discriminate|]. reflexivity.
    + intros [= <- <-]. split; [reflexivity|]. split; [discriminate|]. reflexivity.
  - rewrite (register_with_hostname_forward_Raise _ _ _ _ _ _ _ _ Hget).
    intros [= <- <-]. split; [reflexivity|]. split; [discriminate|]. reflexivity.
Qed.

(** X1: for a uuid and a host name that are single path components,
    whatever [register_with_hostname] does, it changes the tree only by
    adding the link, and only after the site has answered the lookup with
    200: when it raises, the tree is as before; when it returns, the answer
    is 204, the site confirmed the host, and the tree is the old one with
    the new link at a place that was free.  Every entry that was there is
    still there, unchanged. *)
Theorem register_with_hostname_only_adds_confirmed_link
    (environ : gmap string string) (send : Request -> result Response)
    (AGENT_OUTPUT_DIR DATA_SOURCE_DIR : path)
    (authentication : option string) (registration_body : RegistrationWithHNBody)
    (t t' : fs) (r : result Response_) :
  Fs.component (uuid registration_body) = true ->
  Fs.component (host_name registration_body) = true ->
  register_with_hostname environ send AGENT_OUTPUT_DIR DATA_SOURCE_DIR
    authentication registration_body t = (r, t') ->
  (forall e, r = Raise e -> t' = t)
  /\ (forall resp, r = Ok resp ->
        response_status resp = 204
        /\ (exists site_resp,
              _forward_get environ send
                ("objects/host_config/" +:+ host_name registration_body)
                (str authentication) = Ok site_resp
              /\ status_code site_resp = 200)
        /\ exists q,
             Fs.opendir t AGENT_OUTPUT_DIR = Ok q
             /\ t !! Fs.join q (uuid registration_body) = None
             /\ t' = <[Fs.join q (uuid registration_body) :=
                         Symlink (Fs.join DATA_SOURCE_DIR (host_name registration_body))]> t)
  /\ (forall k, is_Some (t !! k) -> t' !! k = t !! k).
Proof. intros _ _. apply register_with_hostname_run. Qed.

Lemma register_with_hostname_only_adds_confirmed_link_witness :
  let run := register_with_hostname site_environ (answering found)
               agent_output_dir data_source_dir (Some "Bearer x")
               (mkRegistrationWithHNBody "uuid-1" "heute") site_tree in
  run.2 !! Fs.join data_source_dir "heute" = site_tree !! Fs.join data_source_dir "heute".
Proof.
  refine (proj2 (proj2 (register_with_hostname_only_adds_confirmed_link
            site_environ (answering found) agent_output_dir data_source_dir
            (Some "Bearer x") (mkRegistrationWithHNBody "uuid-1" "heute") site_tree _
            (Ok (mkResponse_ 204)) eq_refl eq_refl _)) (Fs.join data_source_dir "heute") _).
  - apply run_pair. vm_compute. reflexivity.
  - exists Dir. vm_compute. reflexivity.
Defined.

(** X2: with names that are single path components, once a uuid is
    registered, no later registration of that uuid
    returns, whatever host it names and whatever the site answers; the tree
    stays as the first registration left it and [get_hostname] keeps
    returning the first host name. *)
Theorem register_with_hostname_is_single_shot
    (environ environ' : gmap string string) (send send' : Request -> result Response)
    (AGENT_OUTPUT_DIR DATA_SOURCE_DIR : path)
    (authentication authentication' : option string)
    (first second : RegistrationWithHNBody)
    (t t1 t2 : fs) (resp : Response_) (r : result Response_) :
  Fs.component (uuid first) = true ->
  Fs.component (host_name first) = true ->
  Fs.component (host_name second) = true ->
  register_with_hostname environ send AGENT_OUTPUT_DIR DATA_SOURCE_DIR
    authentication first t = (Ok resp, t1) ->
  uuid second = uuid first ->
  register_with_hostname environ' send' AGENT_OUTPUT_DIR DATA_SOURCE_DIR
    authentication' second t1 = (r, t2) ->
  (exists e, r = Raise e)
  /\ t2 = t1
  /\ get_hostname AGENT_OUTPUT_DIR (uuid first) t2 = (Ok (Some (host_name first)), t2).
Proof.
  intros _ _ _ Hfirst Huuid Hsecond.
  destruct (register_with_hostname_run _ _ _ _ _ _ _ _ _ Hfirst)
    as (_ & Hok & _).
  destruct (Hok resp eq_refl) as (_ & _ & q & Hq & Hnone & ->).
  destruct (register_with_hostname_run _ _ _ _ _ _ _ _ _ Hsecond)
    as (Hraise & Hok2 & _).
  assert (Hr : exists e, r = Raise e).
  { destruct r as [resp'|e]; [|eauto]. exfalso.
    destruct (Hok2 resp' eq_refl) as (_ & _ & q' & Hq' & Hnone' & _).
    rewrite (opendir_insert_fresh _ _ _ _ _ Hnone Hq) in Hq'. injection Hq' as <-.
    rewrite Huuid, lookup_insert_eq in Hnone'. discriminate. }
  destruct Hr as [e ->]. rewrite (Hraise e eq_refl).
  split; [eauto|]. split; [reflexivity|].
  rewrite get_hostname_unfold, (readlink_after_symlink _ _ _ _ _ Hq Hnone), name_join.
  reflexivity.
Qed.

Lemma register_with_hostname_is_single_shot_witness :
  let t1 := (register_with_hostname site_environ (answering found)
               agent_output_dir data_source_dir (Some "Bearer x")
               (mkRegistrationWithHNBody "uuid-1" "heute") site_tree).2 in
  let second := register_with_hostname site_environ (answering found)
                  agent_output_dir data_source_dir None
                  (mkRegistrationWithHNBody "uuid-1" "morgen") t1 in
  (exists e, second.1 = Raise e)
  /\ second.2 = t1
  /\ get_hostname agent_output_dir "uuid-1" second.2 = (Ok (Some "heute"), second.2).
Proof.
  refine (register_with_hostname_is_single_shot
            site_environ site_environ (answering found) (answering found)
            agent_output_dir data_source_dir (Some "Bearer x") None
            (mkRegistrationWithHNBody "uuid-1" "heute")
            (mkRegistrationWithHNBody "uuid-1" "morgen")
            site_tree _ _ (mkResponse_ 204) _ eq_refl eq_refl eq_refl _ eq_refl _).
  - apply run_pair. vm_compute. reflexivity.
  - apply run_pair. reflexivity.
Defined.

(** ** A site that cannot be reached *)

(** X3: when [OMD_SITE] is not in the environment, the URL of the site
    cannot be built: [host_exists] and [post_csr] raise [KeyError] whatever
    the transport would answer, [pairing] raises it too, and
    [register_with_hostname] raises it, not the 404, and makes no link. *)
Theorem unset_site_raises_KeyError
    (environ : gmap string string) (send : Request -> result Response)
    (common_names : string -> option (list string))
    (AGENT_OUTPUT_DIR DATA_SOURCE_DIR : path)
    (authentication : option string) (host csr_text : string)
    (registration_body : RegistrationWithHNBody) (t : fs) :
  environ !! "OMD_SITE" = None ->
  host_exists environ send (str authentication) host = Raise (KeyError "OMD_SITE")
  /\ post_csr environ send (str authentication) csr_text = Raise (KeyError "OMD_SITE")
  /\ pairing environ send common_names authentication (mkPairingBody csr_text)
     = Raise (KeyError "OMD_SITE")
  /\ register_with_hostname environ send AGENT_OUTPUT_DIR DATA_SOURCE_DIR
       authentication registration_body t = (Raise (KeyError "OMD_SITE"), t).
Proof.
  intros Henv.
  assert (Hget : forall endpoint a,
            _forward_get environ send endpoint a = Raise (KeyError "OMD_SITE")).
  { intros. unfold _forward_get, _local_rest_api_url. rewrite Henv. reflexivity. }
  assert (Hpost : post_csr environ send (str authentication) csr_text
                  = Raise (KeyError "OMD_SITE")).
  { unfold post_csr, _forward_post, _local_rest_api_url. rewrite Henv. reflexivity. }
  split; [|split; [|split]].
  - unfold host_exists. rewrite Hget. reflexivity.
  - exact Hpost.
  - unfold pairing. simpl. rewrite Hpost. reflexivity.
  - apply register_with_hostname_forward_Raise, Hget.
Qed.

Lemma unset_site_raises_KeyError_witness :
  register_with_hostname ∅ (answering found) agent_output_dir data_source_dir
    (Some "Bearer x") (mkRegistrationWithHNBody "uuid-1" "heute") site_tree
  = (Raise (KeyError "OMD_SITE"), site_tree).
Proof.
  exact (proj2 (proj2 (proj2 (unset_site_raises_KeyError ∅ (answering found)
           one_common_name agent_output_dir data_source_dir (Some "Bearer x")
           "heute" "csr" (mkRegistrationWithHNBody "uuid-1" "heute") site_tree
           eq_refl)))).
Defined.

(** X4: an exception of the transport during the lookup of the host is not
    turned into "host does not exist": [register_with_hostname] raises that
    exception and makes no link; during the signing request, [pairing]
    raises it. *)
Theorem transport_failure_is_not_masked
    (environ : gmap string string) (send : Request -> result Response)
    (common_names : string -> option (list string))
    (AGENT_OUTPUT_DIR DATA_SOURCE_DIR : path)
    (authentication : option string) (pairing_body : PairingBody)
    (registration_body : RegistrationWithHNBody) (site : string) (e : exn) (t : fs) :
  environ !! "OMD_SITE" = Some site ->
  (forall request, send request = Raise e) ->
  register_with_hostname environ send AGENT_OUTPUT_DIR DATA_SOURCE_DIR
    authentication registration_body t = (Raise e, t)
  /\ pairing environ send common_names authentication pairing_body = Raise e.
Proof.
  intros Henv Hsend. split.
  - apply register_with_hostname_forward_Raise.
    unfold _forward_get, _local_rest_api_url. rewrite Henv. simpl. apply Hsend.
  - unfold pairing, post_csr, _forward_post, _local_rest_api_url.
    rewrite Henv. simpl. rewrite Hsend. reflexivity.
Qed.

Lemma transport_failure_is_not_masked_witness :
  register_with_hostname site_environ unreachable agent_output_dir data_source_dir
    (Some "Bearer x") (mkRegistrationWithHNBody "uuid-1" "heute") site_tree
  = (Raise ConnectionError, site_tree).
Proof.
  refine (proj1 (transport_failure_is_not_masked site_environ unreachable
            one_common_name agent_output_dir data_source_dir (Some "Bearer x")
            (mkPairingBody "csr") (mkRegistrationWithHNBody "uuid-1" "heute")
            "mysite" ConnectionError site_tree eq_refl _)).
  intros request. reflexivity.
Defined.

(** ** Pairing: the log line and the body *)

(** X5: a signing request whose subject has no common name makes [pairing]
    raise [IndexError], on the success and on the failure branch alike: the
    site's answer, a signed certificate or an error to pass on, is lost.  A
    request that does not parse at all is logged with a placeholder and the
    outcome is the one the site's answer gives. *)
Theorem pairing_needs_common_name_for_log
    (environ : gmap string string) (send : Request -> result Response)
    (common_names : string -> option (list string))
    (authentication : option string) (pairing_body : PairingBody) (resp : Response) :
  post_csr environ send (str authentication) (csr pairing_body) = Ok resp ->
  (common_names (csr pairing_body) = Some [] ->
     pairing environ send common_names authentication pairing_body = Raise IndexError)
  /\ (common_names (csr pairing_body) = None ->
        pairing environ send common_names authentication pairing_body =
          if ok resp then json_of resp
          else Raise (HTTPException (status_code resp) (text resp))).
Proof.
  intros Hpost. split; intros Hcn.
  - unfold pairing, _uuid_from_pem_csr. rewrite Hpost, Hcn. simpl.
    destruct (ok resp); reflexivity.
  - apply pairing_unfold with (u := "[CSR parsing failed]"); [exact Hpost|].
    unfold _uuid_from_pem_csr. rewrite Hcn. reflexivity.
Qed.

Lemma pairing_needs_common_name_for_log_witness :
  pairing site_environ (answering found) (fun _ => Some []) (Some "Bearer x")
    (mkPairingBody "csr") = Raise IndexError.
Proof.
  exact (proj1 (pairing_needs_common_name_for_log site_environ (answering found)
           (fun _ => Some []) (Some "Bearer x") (mkPairingBody "csr") found eq_refl)
           eq_refl).
Defined.

(** X6: when the site answers the signing request with a status that is not
    an error but with a body that is not JSON, [pairing] raises the
    [ValueError] of [Response.json()], which FastAPI answers with 500. *)
Theorem pairing_rejects_non_json_success
    (environ : gmap string string) (send : Request -> result Response)
    (common_names : string -> option (list string))
    (authentication : option string) (pairing_body : PairingBody)
    (resp : Response) (u : string) :
  post_csr environ send (str authentication) (csr pairing_body) = Ok resp ->
  _uuid_from_pem_csr common_names (csr pairing_body) = Ok u ->
  ok resp = true ->
  body_json resp = None ->
  pairing environ send common_names authentication pairing_body = Raise ValueError
  /\ reply HTTP_200_OK (pairing environ send common_names authentication pairing_body)
     = (500, InternalServerError).
Proof.
  intros Hpost Hu Hok Hbody.
  rewrite (pairing_unfold _ _ _ _ _ _ _ Hpost Hu), Hok.
  unfold json_of. rewrite Hbody. split; reflexivity.
Qed.

Lemma pairing_rejects_non_json_success_witness :
  pairing site_environ (answering (mkResponse 204 EmptyString None)) one_common_name
    (Some "Bearer x") (mkPairingBody "csr") = Raise ValueError.
Proof.
  exact (proj1 (pairing_rejects_non_json_success site_environ
           (answering (mkResponse 204 EmptyString None)) one_common_name
           (Some "Bearer x") (mkPairingBody "csr") (mkResponse 204 EmptyString None)
           "uuid-1" eq_refl eq_refl eq_refl eq_refl)).
Defined.

(** ** Uploads on unusual output entries *)

Lemma stat_entry (t : fs) (p a : path) (n : string) (x : node) :
  Fs.entry t (Fs.join p n) = Ok (a, Some x) -> no_link (Some x) ->
  Fs.stat t (Fs.join p n) = Ok (a, x).
Proof.
  rewrite entry_join. intros H Hx.
  destruct (Fs.opendir t p) as [d|e] eqn:Hd; [|discriminate]. simpl in H.
  injection H as <- Hl. rewrite (stat_snoc _ _ _ _ Hd); rewrite Hl; [reflexivity | exact Hx].
Qed.

(** X8: when the entry of the uuid in the agent output directory is a real
    directory and not a link, an upload whose store succeeds has replaced the
    payload and then raises the [OSError] of [os.readlink], which
    [get_hostname] does not catch: the caller sees a failure although the
    payload is stored. *)
Theorem agent_data_on_directory_stores_then_raises
    (AGENT_OUTPUT_DIR REGISTRATION_REQUESTS : path) (names : nat -> string)
    (write_fault : option nat) (others : fs -> fs)
    (uuid : string) (upload_file : list byte) (t t1 : fs) (q : path) :
  Fs.component uuid = true ->
  Fs.entry t (Fs.join AGENT_OUTPUT_DIR uuid) = Ok (q, Some Dir) ->
  no_link (t !! Fs.join q "received-output") ->
  store_payload AGENT_OUTPUT_DIR names write_fault uuid upload_file t = (Ok tt, t1) ->
  agent_data AGENT_OUTPUT_DIR REGISTRATION_REQUESTS names write_fault others
    uuid upload_file t = (Raise (OSError "EINVAL"), t1)
  /\ t1 !! Fs.join q "received-output" = Some (File upload_file).
Proof.
  intros _ Hentry Hpayload Hstore.
  assert (Hd : Fs.opendir t (Fs.join AGENT_OUTPUT_DIR uuid) = Ok q).
  { unfold Fs.opendir. rewrite (stat_entry _ _ _ _ _ Hentry I). reflexivity. }
  destruct (store_payload_Ok _ _ _ _ _ _ _ _ Hd Hstore) as [Hdest ->].
  set (dest := Fs.join q "received-output") in *.
  assert (Hs : same_skeleton t (<[dest := File upload_file]> t)).
  { apply same_skeleton_insert_file. destruct (t !! dest) as [[| |]|]; try exact I.
    - apply Hdest. reflexivity.
    - exact Hpayload. }
  split; [|apply lookup_insert_eq].
  rewrite agent_data_unfold, Hstore, get_hostname_unfold.
  unfold Fs.readlink. rewrite (entry_same_skeleton _ _ _ _ _ Hs Hentry). simpl.
  rewrite lookup_insert_ne.
  - rewrite <- (entry_lookup _ _ _ _ Hentry). reflexivity.
  - intros E. apply Hdest. rewrite E. symmetry. exact (entry_lookup _ _ _ _ Hentry).
Qed.

Lemma agent_data_on_directory_stores_then_raises_witness :
  let t1 := (store_payload agent_output_dir one_name None "legacy" payload1 legacy_tree).2 in
  agent_data agent_output_dir registration_requests one_name None id
    "legacy" payload1 legacy_tree = (Raise (OSError "EINVAL"), t1)
  /\ t1 !! Fs.join (Fs.join agent_output_dir "legacy") "received-output"
     = Some (File payload1).
Proof.
  refine (agent_data_on_directory_stores_then_raises
            agent_output_dir registration_requests one_name None id
            "legacy" payload1 legacy_tree _ (Fs.join agent_output_dir "legacy")
            eq_refl _ _ _).
  - vm_compute. reflexivity.
  - vm_compute. exact I.
  - apply run_pair. vm_compute. reflexivity.
Defined.

(** X9: when the entry of the uuid in the agent output directory is a
    regular file, an upload raises [NotADirectoryError], which the handler
    does not turn into the 403, and the tree is unchanged. *)
Theorem agent_data_on_file_raises_NotADirectoryError
    (AGENT_OUTPUT_DIR REGISTRATION_REQUESTS : path) (names : nat -> string)
    (write_fault : option nat) (others : fs -> fs)
    (uuid : string) (upload_file c : list byte) (t : fs) (q : path) :
  Fs.component uuid = true ->
  Fs.entry t (Fs.join AGENT_OUTPUT_DIR uuid) = Ok (q, Some (File c)) ->
  agent_data AGENT_OUTPUT_DIR REGISTRATION_REQUESTS names write_fault others
    uuid upload_file t = (Raise NotADirectoryError, t).
Proof.
  intros _ Hentry.
  assert (Hd : Fs.opendir t (Fs.join AGENT_OUTPUT_DIR uuid) = Raise NotADirectoryError).
  { unfold Fs.opendir. rewrite (stat_entry _ _ _ _ _ Hentry I). reflexivity. }
  rewrite agent_data_unfold, store_payload_unfold.
  rewrite (mkstemp_inner_Raise _ _ _ _ Hd _ _ TMP_MAX_pos). reflexivity.
Qed.

Lemma agent_data_on_file_raises_NotADirectoryError_witness :
  agent_data agent_output_dir registration_requests one_name None id
    "stray" payload1 legacy_tree = (Raise NotADirectoryError, legacy_tree).
Proof.
  refine (agent_data_on_file_raises_NotADirectoryError
            agent_output_dir registration_requests one_name None id
            "stray" payload1 payload2 legacy_tree (Fs.join agent_output_dir "stray")
            eq_refl _).
  vm_compute. reflexivity.
Defined.

(** X10: a write to the temporary file that fails never reaches the rename:
    the upload raises (never the 403, never success), the destination and
    every other entry are as before, and the temporary file, which no
    handler removes, stays in the output directory with what was written. *)
Theorem agent_data_failed_write_leaves_temporary_file
    (AGENT_OUTPUT_DIR REGISTRATION_REQUESTS : path) (names : nat -> string)
    (others : fs -> fs) (written : nat)
    (uuid : string) (upload_file : list byte) (t t' : fs) (d : path) (r : result json) :
  Fs.component uuid = true ->
  Fs.opendir t (Fs.join AGENT_OUTPUT_DIR uuid) = Ok d ->
  agent_data AGENT_OUTPUT_DIR REGISTRATION_REQUESTS names (Some written) others
    uuid upload_file t = (r, t') ->
  (r = Raise FileExistsError /\ t' = t)
  \/ exists n,
       t !! Fs.join d ("tmp" +:+ n) = None
       /\ r = Raise (OSError "ENOSPC")
       /\ t' = <[Fs.join d ("tmp" +:+ n) := File (take written upload_file)]> t.
Proof.
  intros _ Hd. rewrite agent_data_unfold, store_payload_unfold.
  destruct (Fs._mkstemp_inner _ names 0 Fs.TMP_MAX t) as [[[fd tp] t1]|e] eqn:Emk.
  - destruct (mkstemp_inner_Ok _ _ _ _ _ _ _ _ Emk) as (q & n & Hq & -> & _ & Hn & ->).
    rewrite Hd in Hq. injection Hq as <-.
    rewrite insert_insert_eq. intros [= <- <-]. right. eauto.
  - rewrite (mkstemp_inner_Raise_inv _ _ _ _ Hd _ _ _ Emk).
    intros [= <- <-]. left. auto.
Qed.

Lemma agent_data_failed_write_leaves_temporary_file_witness :
  let run := agent_data agent_output_dir registration_requests one_name (Some 1%nat) id
               "uuid-1" payload1 stored_tree in
  (run.1 = Raise FileExistsError /\ run.2 = stored_tree)
  \/ exists n,
       stored_tree !! Fs.join (Fs.join data_source_dir "heute") ("tmp" +:+ n) = None
       /\ run.1 = Raise (OSError "ENOSPC")
       /\ run.2 = <[Fs.join (Fs.join data_source_dir "heute") ("tmp" +:+ n) :=
                      File (take 1 payload1)]> stored_tree.
Proof.
  refine (agent_data_failed_write_leaves_temporary_file
            agent_output_dir registration_requests one_name id 1 "uuid-1" payload1
            stored_tree _ (Fs.join data_source_dir "heute") _ eq_refl _ _).
  - vm_compute. reflexivity.
  - apply run_pair. reflexivity.
Defined.

(** ** Uploads in sequence *)

Section SteadyState.
Variables AGENT_OUTPUT_DIR REGISTRATION_REQUESTS : path.

(** An upload that succeeds while no READY request waits only replaces the
    payload. *)
Lemma agent_data_steady (names : nat -> string) (write_fault : option nat)
    (others : fs -> fs) (uuid : string) (data : list byte) (t t' : fs)
    (d a : path) (msg : json) :
  Fs.opendir t (Fs.join AGENT_OUTPUT_DIR uuid) = Ok d ->
  no_link (t !! Fs.join d "received-output") ->
  Fs.entry t (ready_file REGISTRATION_REQUESTS uuid) = Ok (a, None) ->
  agent_data AGENT_OUTPUT_DIR REGISTRATION_REQUESTS names write_fault others uuid data t
    = (Ok msg, t') ->
  t' = <[Fs.join d "received-output" := File data]> t
  /\ same_skeleton t t'
  /\ Fs.entry t' (ready_file REGISTRATION_REQUESTS uuid) = Ok (a, None).
Proof.
  intros Hd Hpayload Hready Hrun.
  destruct (agent_data_Ok_inv _ _ _ _ _ _ _ _ _ _ Hrun)
    as (t1 & hostname & Hstore & _ & Hprom & _).
  destruct (store_payload_Ok _ _ _ _ _ _ _ _ Hd Hstore) as [Hdest ->].
  set (dest := Fs.join d "received-output") in *.
  assert (Hs : same_skeleton t (<[dest := File data]> t)).
  { apply same_skeleton_insert_file. destruct (t !! dest) as [[| |]|]; try exact I.
    - apply Hdest. reflexivity.
    - exact Hpayload. }
  assert (Ha : a <> dest).
  { apply name_json_not_received_output with (u := uuid).
    rewrite (entry_name _ _ _ _ Hready). apply name_join. }
  assert (Hready1 : Fs.entry (<[dest := File data]> t) (ready_file REGISTRATION_REQUESTS uuid)
                    = Ok (a, None)).
  { rewrite (entry_same_skeleton _ _ _ _ _ Hs Hready).
    rewrite lookup_insert_ne by (intros E; apply Ha; symmetry; exact E).
    rewrite <- (entry_lookup _ _ _ _ Hready). reflexivity. }
  assert (Hunseen : Fs.exists_ (<[dest := File data]> t)
                      (ready_file REGISTRATION_REQUESTS uuid) = false).
  { unfold Fs.exists_, ready_file in *. rewrite entry_join in Hready1.
    destruct (Fs.opendir _ (Fs.join REGISTRATION_REQUESTS "READY")) as [dr|e] eqn:Hdr;
      [|discriminate].
    simpl in Hready1. injection Hready1 as <- Hnone.
    rewrite (stat_no_entry _ _ _ _ Hdr Hnone). reflexivity. }
  rewrite promote_unfold, Hunseen in Hprom. simpl in Hprom. injection Hprom as <-.
  auto.
Qed.

End SteadyState.

(** X11: two uploads for a uuid that both succeed while no READY request
    waits: each leaves the tree it found with the payload replaced and
    nothing else changed, so after the second the stored payload is the
    second one and no trace of the first is kept; uploading the same payload
    again changes nothing. *)
Theorem agent_data_last_upload_wins
    (AGENT_OUTPUT_DIR REGISTRATION_REQUESTS : path)
    (names names' : nat -> string) (write_fault write_fault' : option nat)
    (others others' : fs -> fs)
    (uuid : string) (first second : list byte) (t t1 t2 : fs)
    (d a : path) (msg msg' : json) :
  Fs.component uuid = true ->
  Fs.opendir t (Fs.join AGENT_OUTPUT_DIR uuid) = Ok d ->
  no_link (t !! Fs.join d "received-output") ->
  Fs.entry t (ready_file REGISTRATION_REQUESTS uuid) = Ok (a, None) ->
  agent_data AGENT_OUTPUT_DIR REGISTRATION_REQUESTS names write_fault others
    uuid first t = (Ok msg, t1) ->
  agent_data AGENT_OUTPUT_DIR REGISTRATION_REQUESTS names' write_fault' others'
    uuid second t1 = (Ok msg', t2) ->
  t1 = <[Fs.join d "received-output" := File first]> t
  /\ t2 = <[Fs.join d "received-output" := File second]> t
  /\ (first = second -> t2 = t1).
Proof.
  intros _ Hd Hpayload Hready Hrun1 Hrun2.
  destruct (agent_data_steady _ _ _ _ _ _ _ _ _ _ _ _ Hd Hpayload Hready Hrun1)
    as (-> & Hs & Hready1).
  assert (Hd1 := opendir_same_skeleton _ _ _ _ Hs Hd).
  assert (Hpayload1 : no_link (<[Fs.join d "received-output" := File first]> t
                               !! Fs.join d "received-output")).
  { rewrite lookup_insert_eq. exact I. }
  destruct (agent_data_steady _ _ _ _ _ _ _ _ _ _ _ _ Hd1 Hpayload1 Hready1 Hrun2)
    as (-> & _ & _).
  rewrite insert_insert_eq. split; [reflexivity|]. split; [reflexivity|].
  intros ->. reflexivity.
Qed.

(** X12: registration and first data in sequence.  After
    [register_with_hostname] has returned for a uuid and a host name, a
    successful upload for the uuid stores the payload in the host's data
    directory and moves the waiting READY request to the DISCOVERABLE entry
    named after that host name. *)
Theorem register_then_upload_promotes
    (environ : gmap string string) (send : Request -> result Response)
    (AGENT_OUTPUT_DIR DATA_SOURCE_DIR REGISTRATION_REQUESTS : path)
    (names : nat -> string) (write_fault : option nat)
    (authentication : option string) (registration_body : RegistrationWithHNBody)
    (upload_file c : list byte) (t t1 t2 : fs) (d a b : path)
    (resp : Response_) (msg : json) :
  Fs.component (uuid registration_body) = true ->
  Fs.component (host_name registration_body) = true ->
  register_with_hostname environ send AGENT_OUTPUT_DIR DATA_SOURCE_DIR
    authentication registration_body t = (Ok resp, t1) ->
  Fs.opendir t1 (Fs.join AGENT_OUTPUT_DIR (uuid registration_body)) = Ok d ->
  no_link (t1 !! Fs.join d "received-output") ->
  Fs.entry t1 (ready_file REGISTRATION_REQUESTS (uuid registration_body))
    = Ok (a, Some (File c)) ->
  Fs.entry t1 (discoverable_file REGISTRATION_REQUESTS (host_name registration_body))
    = Ok (b, t1 !! b) ->
  Fs.isdir t1 (discoverable_file REGISTRATION_REQUESTS (host_name registration_body))
    = false ->
  a <> b ->
  agent_data AGENT_OUTPUT_DIR REGISTRATION_REQUESTS names write_fault id
    (uuid registration_body) upload_file t1 = (Ok msg, t2) ->
  t2 !! Fs.join d "received-output" = Some (File upload_file)
  /\ t2 !! b = Some (File c)
  /\ t2 !! a = None.
Proof.
  intros _ HH Hreg Hd Hpayload Hready Hdisc Hnotdir Hab Hrun.
  destruct (register_with_hostname_run _ _ _ _ _ _ _ _ _ Hreg)
    as (_ & Hok & _).
  destruct (Hok resp eq_refl) as (_ & _ & q & Hq & Hnone & Ht1).
  assert (Hlink : Fs.readlink (Fs.join AGENT_OUTPUT_DIR (uuid registration_body)) t1
                  = Ok (Fs.join DATA_SOURCE_DIR (host_name registration_body))).
  { rewrite Ht1. apply readlink_after_symlink; assumption. }
  rewrite (promotion_after_link _ _ _ _ _ _ _ _ _ _ _ _ _ _ _ HH Hlink Hd Hpayload
             Hready Hdisc Hnotdir Hab Hrun).
  assert (Ha : a <> Fs.join d "received-output").
  { apply name_json_not_received_output with (u := uuid registration_body).
    rewrite (entry_name _ _ _ _ Hready). apply name_join. }
  assert (Hb : b <> Fs.join d "received-output").
  { apply name_json_not_received_output with (u := host_name registration_body).
    rewrite (entry_name _ _ _ _ Hdisc). apply name_join. }
  split; [|split].
  - rewrite lookup_insert_ne by exact Hb. rewrite lookup_delete_ne by exact Ha.
    apply lookup_insert_eq.
  - apply lookup_insert_eq.
  - rewrite lookup_insert_ne by (intros E; apply Hab; symmetry; exact E).
    apply lookup_delete_eq.
Qed.

Lemma agent_data_last_upload_wins_witness :
  let destination := Fs.join (Fs.join data_source_dir "heute") "received-output" in
  let t1 := (agent_data agent_output_dir registration_requests one_name None id
               "uuid-1" payload1 (sweep linked_tree)).2 in
  let t2 := (agent_data agent_output_dir registration_requests one_name None sweep
               "uuid-1" payload2 t1).2 in
  t1 = <[destination := File payload1]> (sweep linked_tree)
  /\ t2 = <[destination := File payload2]> (sweep linked_tree)
  /\ (payload1 = payload2 -> t2 = t1).
Proof.
  refine (agent_data_last_upload_wins agent_output_dir registration_requests
            one_name one_name None None id sweep "uuid-1" payload1 payload2
            (sweep linked_tree) _ _ (Fs.join data_source_dir "heute")
            (Fs.join (Fs.join registration_requests "READY") "uuid-1.json")
            message_saved message_saved eq_refl _ _ _ _ _).
  - vm_compute. reflexivity.
  - vm_compute. exact I.
  - vm_compute. reflexivity.
  - apply run_pair. vm_compute. reflexivity.
  - apply run_pair. vm_compute. reflexivity.
Defined.

Lemma register_then_upload_promotes_witness :
  let t1 := (register_with_hostname site_environ (answering found)
               agent_output_dir data_source_dir (Some "Bearer x")
               (mkRegistrationWithHNBody "uuid-1" "heute") site_tree).2 in
  let t2 := (agent_data agent_output_dir registration_requests one_name None id
               "uuid-1" payload1 t1).2 in
  t2 !! Fs.join (Fs.join data_source_dir "heute") "received-output" = Some (File payload1)
  /\ t2 !! Fs.join (Fs.join registration_requests "DISCOVERABLE") "heute.json"
     = Some (File [])
  /\ t2 !! Fs.join (Fs.join registration_requests "READY") "uuid-1.json" = None.
Proof.
  refine (register_then_upload_promotes site_environ (answering found)
            agent_output_dir data_source_dir registration_requests one_name None
            (Some "Bearer x") (mkRegistrationWithHNBody "uuid-1" "heute")
            payload1 [] site_tree _ _ (Fs.join data_source_dir "heute")
            (Fs.join (Fs.join registration_requests "READY") "uuid-1.json")
            (Fs.join (Fs.join registration_requests "DISCOVERABLE") "heute.json")
            (mkResponse_ 204) message_saved eq_refl eq_refl _ _ _ _ _ _ _ _).
  - apply run_pair. vm_compute. reflexivity.
  - vm_compute. reflexivity.
  - vm_compute. exact I.
  - vm_compute. reflexivity.
  - vm_compute. reflexivity.
  - vm_compute. reflexivity.
  - vm_compute. discriminate.
  - apply run_pair. vm_compute. reflexivity.
Defined.

(** ** A promotion that cannot take place *)

Lemma walk_snoc_Raise (t : fs) (c : string) :
  forall fuel cur p e,
    Fs.walk fuel t cur p = Raise e -> Fs.walk fuel t cur (p ++ [c]) = Raise e.
Proof.
  induction fuel as [|fuel IHf]; intros cur p; revert cur;
    induction p as [|a p IHp]; intros cur e.
  all: try (rewrite walk_nil; discriminate).
  all: change ((a :: p) ++ [c])%list with (a :: (p ++ [c]))%list; rewrite !walk_cons;
    destruct (t !! Fs.join cur a) as [[|x|target]|]; auto;
    try (destruct p; [discriminate | auto]).
  rewrite app_assoc. apply IHf.
Qed.

Lemma stat_snoc_Raise (t : fs) (d : path) (c : string) :
  Fs.opendir t d = Raise FileNotFoundError ->
  Fs.stat t (Fs.join d c) = Raise FileNotFoundError.
Proof.
  unfold Fs.opendir, Fs.stat, Fs.join. intros H.
  destruct (Fs.walk Fs.MAXSYMLINKS t [] d) as [[q [| |]]|e] eqn:E; try discriminate.
  injection H as ->. exact (walk_snoc_Raise _ _ _ _ _ _ E).
Qed.

(** [shutil.move] of a file to a directory that does not exist. *)
Lemma move_without_directory (s : fs) (p dir a : path) (n m : string) (c : list byte) :
  Fs.entry s (Fs.join p n) = Ok (a, Some (File c)) ->
  Fs.opendir s dir = Raise FileNotFoundError ->
  Fs.move (Fs.join p n) (Fs.join dir m) s = Raise FileNotFoundError.
Proof.
  intros Hsrc Hdir.
  pose proof (stat_entry _ _ _ _ _ Hsrc I) as Hstat.
  pose proof (entry_join_Raise s dir m _ Hdir) as Hdst.
  unfold Fs.move, Fs.isdir at 1. rewrite (stat_snoc_Raise _ _ _ Hdir). simpl.
  unfold Fs.rename. rewrite Hsrc. simpl. rewrite Hdst. simpl.
  unfold Fs.islink, Fs.isdir, Fs.copy2, Fs.read_file, Fs.write_file.
  rewrite Hsrc, Hstat. simpl. rewrite Hdst. reflexivity.
Qed.

(** X13: when the DISCOVERABLE directory does not exist, a linked uuid's
    upload still returns its message: the [FileNotFoundError] of the move is
    caught like a lost race, nothing is reported, and the READY request
    stays where it was. *)
Theorem agent_data_skips_promotion_without_DISCOVERABLE
    (AGENT_OUTPUT_DIR REGISTRATION_REQUESTS : path)
    (names : nat -> string) (write_fault : option nat)
    (uuid : string) (upload_file c : list byte) (t t1 : fs) (target a : path) :
  Fs.component uuid = true ->
  store_payload AGENT_OUTPUT_DIR names write_fault uuid upload_file t = (Ok tt, t1) ->
  Fs.readlink (Fs.join AGENT_OUTPUT_DIR uuid) t1 = Ok target ->
  truthy (Some (Fs.name target)) = true ->
  Fs.entry t1 (ready_file REGISTRATION_REQUESTS uuid) = Ok (a, Some (File c)) ->
  Fs.opendir t1 (Fs.join REGISTRATION_REQUESTS "DISCOVERABLE") = Raise FileNotFoundError ->
  agent_data AGENT_OUTPUT_DIR REGISTRATION_REQUESTS names write_fault id
    uuid upload_file t = (Ok message_saved, t1)
  /\ t1 !! a = Some (File c).
Proof.
  intros _ Hstore Hlink Hname Hready Hdisc.
  split; [|symmetry; exact (entry_lookup _ _ _ _ Hready)].
  rewrite agent_data_unfold, Hstore, get_hostname_unfold, Hlink, promote_unfold.
  assert (Hseen : Fs.exists_ t1 (ready_file REGISTRATION_REQUESTS uuid) = true).
  { unfold Fs.exists_, ready_file in *. rewrite (stat_entry _ _ _ _ _ Hready I).
    reflexivity. }
  rewrite Hseen, Hname. simpl. unfold id, ready_file, discoverable_file in *.
  rewrite (move_without_directory _ _ _ _ _ _ _ Hready Hdisc). reflexivity.
Qed.

Lemma agent_data_skips_promotion_without_DISCOVERABLE_witness :
  let t1 := (store_payload agent_output_dir one_name None "uuid-1" payload1
               bare_tree).2 in
  agent_data agent_output_dir registration_requests one_name None id
    "uuid-1" payload1 bare_tree = (Ok message_saved, t1)
  /\ t1 !! Fs.join (Fs.join registration_requests "READY") "uuid-1.json" = Some (File []).
Proof.
  refine (agent_data_skips_promotion_without_DISCOVERABLE
            agent_output_dir registration_requests one_name None
            "uuid-1" payload1 [] bare_tree _ (Fs.join data_source_dir "heute")
            (Fs.join (Fs.join registration_requests "READY") "uuid-1.json")
            eq_refl _ _ _ _ _).
  - apply run_pair. vm_compute. reflexivity.
  - vm_compute. reflexivity.
  - vm_compute. reflexivity.
  - vm_compute. reflexivity.
  - vm_compute. reflexivity.
Defined.
